(** * ReflexTakktileHand: command arbitration, tactile-stop interlock,
      feedback routing and the communications watchdog

    Shallow embedding of [reflex/src/reflex/reflex_takktile_hand.py].

    The hand object is a record; the two dictionaries [self.motors] and
    [self.fingers] are finite maps keyed by the ROS names of the joints.
    Methods are computations in a state-and-exception monad over a [World]
    that holds the hand, the ROS clock, the shutdown flag and the trace of
    observable events (calls that leave the object, sleeps, and the entry
    and return of the interlock toggles).  A Python exception keeps every
    mutation made before it was raised, and so does [Raise] here.

    The classes the file imports but does not define ([ReflexHand],
    [ReflexTakktileMotor], [finger.Finger]) are interfaces: type classes
    whose methods are arbitrary functions, so that what is proved about the
    controller holds for every implementation of them.  One instance of each,
    written from the specification, is used to run the model on concrete
    inputs. *)

From Stdlib Require Import ZArith QArith String.
From stdpp Require Import gmap strings list fin_maps.

Local Open Scope Z_scope.
Local Open Scope string_scope.
Local Open Scope list_scope.

(** ** Messages *)

(** Modelled from the spec: the message types of the [reflex_msgs] package
    are declared outside this file.  A command carries one real setpoint per
    actuator; the feedback message carries the list [motor] of actuator
    records and the list [finger] of finger records, which the handler
    indexes by position. *)
Module reflex_msgs.

Record Setpoints := mkSetpoints {
  f1 : Q; f2 : Q; f3 : Q; preshape : Q }.

Definition PoseCommand := Setpoints.
Definition VelocityCommand := Setpoints.
Definition ForceCommand := Setpoints.

Record Command := mkCommand {
  pose : PoseCommand;
  velocity : VelocityCommand }.

Record Motor := mkMotor {
  joint_angle : Q;
  motor_load : Q }.

Record Finger := mkFinger {
  proximal : Q;
  contact : list bool }.

Record Hand := mkHand {
  motor : list Motor;
  finger : list Finger }.

End reflex_msgs.

(** ** ROS time *)

(** A [rospy] time stamp: whole seconds and the nanoseconds within the
    second.  Only [secs] is read by the controller. *)
Record Time := mkTime { secs : Z; nsecs : Z }.

Definition NSECS_PER_SEC : Z := 1000000000.

Definition time_wf (t : Time) : Prop := 0 <= nsecs t < NSECS_PER_SEC.

(** [t + d] for a duration [d] given in nanoseconds, with the carry of the
    nanosecond field into the seconds that [rospy] performs. *)
Definition time_add (t : Time) (d : Z) : Time :=
  mkTime (secs t + (nsecs t + d) / NSECS_PER_SEC)
         ((nsecs t + d) mod NSECS_PER_SEC).

Definition seconds (s : Z) : Z := s * NSECS_PER_SEC.
Definition millis (ms : Z) : Z := ms * 1000000.

(** ** Actuators and fingers *)

Record Finger := mkFinger {
  finger_state : option reflex_msgs.Finger }.

(** The attributes of a motor object that the hand reads or writes are the
    three dirty flags and the [finger] reference, which names an entry of the
    hand's [fingers] dictionary (the dictionary and the motor share the
    finger object).  Modelled from the spec: the remaining fields are the
    setpoints, the tactile-stop mode and the mirrored feedback of the motor
    class, which is defined outside this file. *)
Record Motor := mkMotor {
  speed_update_occurred : bool;
  position_update_occurred : bool;
  torque_update_occurred : bool;
  finger : option string;
  commanded_speed : Q;
  commanded_position : Q;
  commanded_torque : Q;
  tactile_stops : bool;
  motor_state : option reflex_msgs.Motor }.

Definition set_speed_update_occurred (b : bool) (m : Motor) : Motor :=
  mkMotor b (position_update_occurred m) (torque_update_occurred m)
          (finger m) (commanded_speed m) (commanded_position m)
          (commanded_torque m) (tactile_stops m) (motor_state m).

Definition set_position_update_occurred (b : bool) (m : Motor) : Motor :=
  mkMotor (speed_update_occurred m) b (torque_update_occurred m)
          (finger m) (commanded_speed m) (commanded_position m)
          (commanded_torque m) (tactile_stops m) (motor_state m).

Definition set_torque_update_occurred (b : bool) (m : Motor) : Motor :=
  mkMotor (speed_update_occurred m) (position_update_occurred m) b
          (finger m) (commanded_speed m) (commanded_position m)
          (commanded_torque m) (tactile_stops m) (motor_state m).

Definition set_finger (f : option string) (m : Motor) : Motor :=
  mkMotor (speed_update_occurred m) (position_update_occurred m)
          (torque_update_occurred m) f (commanded_speed m)
          (commanded_position m) (commanded_torque m) (tactile_stops m)
          (motor_state m).

(** ** The hand object *)

Record Hand := mkHand {
  namespace : string;
  motors : gmap string Motor;
  fingers : gmap string Finger;
  tactile_stops_enabled : bool;
  comms_timeout : Q;
  latest_update : Time }.

Definition with_motors (ms : gmap string Motor) (h : Hand) : Hand :=
  mkHand (namespace h) ms (fingers h) (tactile_stops_enabled h)
         (comms_timeout h) (latest_update h).

Definition with_fingers (fs : gmap string Finger) (h : Hand) : Hand :=
  mkHand (namespace h) (motors h) fs (tactile_stops_enabled h)
         (comms_timeout h) (latest_update h).

Definition with_tactile_stops_enabled (b : bool) (h : Hand) : Hand :=
  mkHand (namespace h) (motors h) (fingers h) b
         (comms_timeout h) (latest_update h).

Definition with_comms_timeout (q : Q) (h : Hand) : Hand :=
  mkHand (namespace h) (motors h) (fingers h) (tactile_stops_enabled h)
         q (latest_update h).

Definition with_latest_update (t : Time) (h : Hand) : Hand :=
  mkHand (namespace h) (motors h) (fingers h) (tactile_stops_enabled h)
         (comms_timeout h) t.

(** ** Observable events *)

Inductive Event :=
  (* entry and return of the two interlock toggles of the hand *)
  | EvDisableCall
  | EvDisableReturn
  | EvEnableCall
  | EvEnableReturn
  (* rospy.sleep, duration in nanoseconds *)
  | EvSleep (d : Z)
  (* setters inherited from the base class *)
  | EvSetSpeeds (v : reflex_msgs.VelocityCommand)
  | EvSetAngles (p : reflex_msgs.PoseCommand)
  | EvSetVelocities (v : reflex_msgs.VelocityCommand)
  | EvSetForceCmds (f : reflex_msgs.ForceCommand)
  | EvResetSpeeds
  (* feedback *)
  | EvLatestUpdate (t : Time)
  | EvMotorState (ID : string) (r : reflex_msgs.Motor)
  | EvFingerState (ID : string) (r : reflex_msgs.Finger)
  (* outbound commands: the set_speed service and the two publishers *)
  | EvSetSpeedService (payload : list Q)
  | EvMotorCmdPub (payload : list Q)
  | EvMotorTorquePub (payload : list Q)
  (* watchdog *)
  | EvLogFatal (timeout : Q)
  | EvSignalShutdown (reason : string).

Inductive Exn :=
  | KeyError (key : string)
  | IndexError (index : nat).

Inductive result (A : Type) :=
  | Ok (a : A)
  | Raise (e : Exn).
Arguments Ok {A} a.
Arguments Raise {A} e.

Record World := mkWorld {
  hand : Hand;
  clock : Time;
  is_shutdown : bool;
  trace : list Event }.

(** ** The monad of methods *)

Definition M (A : Type) : Type := World -> result A * World.

#[global] Instance M_ret : MRet M := fun A a w => (Ok a, w).

#[global] Instance M_bind : MBind M := fun A B f c w =>
  match c w with
  | (Ok a, w') => f a w'
  | (Raise e, w') => (Raise e, w')
  end.

Definition raise {A} (e : Exn) : M A := fun w => (Raise e, w).

Definition get_hand : M Hand := fun w => (Ok (hand w), w).

Definition modify_hand (f : Hand -> Hand) : M unit := fun w =>
  (Ok tt, mkWorld (f (hand w)) (clock w) (is_shutdown w) (trace w)).

Definition log (e : Event) : M unit := fun w =>
  (Ok tt, mkWorld (hand w) (clock w) (is_shutdown w) (trace w ++ [e])).

Definition get_rostime : M Time := fun w => (Ok (clock w), w).

(** [rospy.sleep d]: the clock has advanced by [d] when the call returns. *)
Definition sleep (d : Z) : M unit := fun w =>
  (Ok tt, mkWorld (hand w) (time_add (clock w) d) (is_shutdown w)
                  (trace w ++ [EvSleep d])).

Definition signal_shutdown (reason : string) : M unit := fun w =>
  (Ok tt, mkWorld (hand w) (clock w) true
                  (trace w ++ [EvSignalShutdown reason])).

Definition when (b : bool) (c : M unit) : M unit :=
  if b then c else mret tt.

(** [d[k]] on a dictionary and [l[i]] on a list. *)
Definition dict_get {V} (d : gmap string V) (k : string) : M V :=
  match d !! k with
  | Some v => mret v
  | None => raise (KeyError k)
  end.

Definition list_get {V} (l : list V) (i : nat) : M V :=
  match l !! i with
  | Some v => mret v
  | None => raise (IndexError i)
  end.

Fixpoint for_each {A} (l : list A) (body : A -> M unit) : M unit :=
  match l with
  | [] => mret tt
  | x :: l' => body x ;; for_each l' body
  end.

Definition exec {A} (c : M A) (w : World) : World := (c w).2.
Definition outcome {A} (c : M A) (w : World) : result A := (c w).1.

(** ** Interfaces of the imported classes *)

(** The motor class handed to the base constructor
    ([ReflexTakktileMotor]).  Its methods act on the motor object; the
    feedback callback may also read the finger the motor is connected to. *)
Class MotorClass := {
  new_motor : string -> Motor;
  get_commanded_speed : Motor -> Q;
  get_commanded_position : Motor -> Q;
  get_commanded_torque : Motor -> Q;
  motor_disable_tactile_stops : Motor -> Motor;
  motor_enable_tactile_stops : Motor -> Motor;
  motor_receive_state_cb : reflex_msgs.Motor -> option Finger -> Motor -> Motor }.

(** [finger.Finger]. *)
Class FingerClass := {
  new_finger : Finger;
  finger_receive_state_cb : reflex_msgs.Finger -> Finger -> Finger }.

(** The setters inherited from [ReflexHand]; they write setpoints and dirty
    flags of the motors. *)
Class ReflexHand := {
  base_set_speeds : reflex_msgs.VelocityCommand -> gmap string Motor -> gmap string Motor;
  base_set_angles : reflex_msgs.PoseCommand -> gmap string Motor -> gmap string Motor;
  base_set_velocities : reflex_msgs.VelocityCommand -> gmap string Motor -> gmap string Motor;
  base_set_force_cmds : reflex_msgs.ForceCommand -> gmap string Motor -> gmap string Motor;
  base_reset_speeds : gmap string Motor -> gmap string Motor }.

(** The order in which a loop over [d.items()] visits a dictionary.  Python
    fixes no order for it, so the order is a parameter of the model: any
    listing of the items, each exactly once. *)
Class DictOrder := {
  dict_items : forall {V : Type}, gmap string V -> list (string * V);
  dict_items_perm :
    forall (V : Type) (d : gmap string V), dict_items d ≡ₚ map_to_list d }.

(** [any([motor.flag for ID, motor in self.motors.items()])]; the result of
    [any] over a list of booleans does not depend on the order. *)
Definition any_motor (flag : Motor -> bool) (ms : gmap string Motor) : bool :=
  existsb flag (map_to_list ms).*2.

Section ReflexTakktileHand.

Context {MC : MotorClass} {FC : FingerClass} {RH : ReflexHand} {DO : DictOrder}.

(** Modelled from the spec: the constructor of the base class [ReflexHand]
    is outside this file; it records the namespace and builds one motor
    of the given class for each of the four joints.  It is given nothing to
    say about the attributes that [ReflexTakktileHand.__init__] assigns
    itself (fingers, interlock flag, timeout, watchdog clock): they are
    whatever the object [h0] held before. *)
Definition ReflexHand_init (name : string) (h0 : Hand) : Hand :=
  mkHand name
         (<[name +:+ "_f1" := new_motor (name +:+ "_f1")]>
          (<[name +:+ "_f2" := new_motor (name +:+ "_f2")]>
           (<[name +:+ "_f3" := new_motor (name +:+ "_f3")]>
            (<[name +:+ "_preshape" := new_motor (name +:+ "_preshape")]> ∅))))
         (fingers h0) (tactile_stops_enabled h0) (comms_timeout h0)
         (latest_update h0).

Definition modify_motors (f : gmap string Motor -> gmap string Motor) : M unit :=
  modify_hand (fun h => with_motors (f (motors h)) h).

Definition set_speeds (v : reflex_msgs.VelocityCommand) : M unit :=
  log (EvSetSpeeds v) ;; modify_motors (base_set_speeds v).

Definition set_angles (p : reflex_msgs.PoseCommand) : M unit :=
  log (EvSetAngles p) ;; modify_motors (base_set_angles p).

Definition set_velocities (v : reflex_msgs.VelocityCommand) : M unit :=
  log (EvSetVelocities v) ;; modify_motors (base_set_velocities v).

Definition set_force_cmds (f : reflex_msgs.ForceCommand) : M unit :=
  log (EvSetForceCmds f) ;; modify_motors (base_set_force_cmds f).

Definition reset_speeds : M unit :=
  log EvResetSpeeds ;; modify_motors base_reset_speeds.

(** *** Interlock toggles *)

(** [disable_tactile_stops] (lines 104-109): flag, then every motor, then the
    settle delay of 0.05 s. *)
Definition disable_tactile_stops : M unit :=
  log EvDisableCall ;;
  modify_hand (with_tactile_stops_enabled false) ;;
  modify_motors (fmap motor_disable_tactile_stops) ;;
  sleep (millis 50) ;;
  log EvDisableReturn.

(** [enable_tactile_stops] (lines 111-116): the delay of 0.07 s comes first. *)
Definition enable_tactile_stops : M unit :=
  log EvEnableCall ;;
  sleep (millis 70) ;;
  modify_hand (with_tactile_stops_enabled true) ;;
  modify_motors (fmap motor_enable_tactile_stops) ;;
  log EvEnableReturn.

(** *** Command handlers *)

(** Lines 58-65. *)
Definition _receive_cmd_cb (data : reflex_msgs.Command) : M unit :=
  h ← get_hand ;
  let reset := tactile_stops_enabled h in
  when reset disable_tactile_stops ;;
  set_speeds (reflex_msgs.velocity data) ;;
  set_angles (reflex_msgs.pose data) ;;
  when reset enable_tactile_stops.

(** Lines 67-74. *)
Definition _receive_angle_cmd_cb (data : reflex_msgs.PoseCommand) : M unit :=
  h ← get_hand ;
  let reset := tactile_stops_enabled h in
  when reset disable_tactile_stops ;;
  reset_speeds ;;
  set_angles data ;;
  when reset enable_tactile_stops.

(** Lines 76-82. *)
Definition _receive_vel_cmd_cb (data : reflex_msgs.VelocityCommand) : M unit :=
  h ← get_hand ;
  let reset := tactile_stops_enabled h in
  when reset disable_tactile_stops ;;
  set_velocities data ;;
  when reset enable_tactile_stops.

(** Lines 84-87. *)
Definition _receive_force_cmd_cb (data : reflex_msgs.ForceCommand) : M unit :=
  disable_tactile_stops ;;
  reset_speeds ;;
  set_force_cmds data.

(** *** Construction *)

(** Lines 89-92: the body of the loop over [self.motors.items()], then the
    loop. *)
Definition connect_motor (item : string * Motor) : M unit :=
  let '(ID, _) := item in
  h ← get_hand ;
  if bool_decide (ID ≠ namespace h +:+ "_preshape") then
    _ ← dict_get (fingers h) ID ;
    modify_motors (alter (set_finger (Some ID)) ID)
  else mret tt.

Definition _connect_motors_to_fingers : M unit :=
  h ← get_hand ;
  for_each (dict_items (motors h)) connect_motor.

(** Lines 37-56.  Publishers, service proxies, services and the subscriber
    hold no state of the hand. *)
Definition __init__ : M unit :=
  modify_hand (ReflexHand_init "/reflex_takktile") ;;
  h ← get_hand ;
  modify_hand (with_fingers
    (<[namespace h +:+ "_f1" := new_finger]>
     (<[namespace h +:+ "_f2" := new_finger]>
      (<[namespace h +:+ "_f3" := new_finger]> ∅)))) ;;
  _connect_motors_to_fingers ;;
  modify_hand (with_tactile_stops_enabled false) ;;
  modify_hand (with_comms_timeout 5%Q) ;;
  now ← get_rostime ;
  modify_hand (with_latest_update now).

(** *** Feedback *)

(** [self.motors[ID]._receive_state_cb(data.motor[i])]: the dictionary is
    read before the list is indexed. *)
Definition motor_state_cb (ID : string) (data : list reflex_msgs.Motor) (i : nat) : M unit :=
  h ← get_hand ;
  m ← dict_get (motors h) ID ;
  r ← list_get data i ;
  log (EvMotorState ID r) ;;
  modify_motors (<[ID := motor_receive_state_cb r (finger m ≫= (fingers h !!.)) m]>).

(** [self.fingers[ID]._receive_state_cb(data.finger[i])] *)
Definition finger_state_cb (ID : string) (data : list reflex_msgs.Finger) (i : nat) : M unit :=
  h ← get_hand ;
  f ← dict_get (fingers h) ID ;
  r ← list_get data i ;
  log (EvFingerState ID r) ;;
  modify_hand (fun h => with_fingers (<[ID := finger_receive_state_cb r f]> (fingers h)) h).

(** Lines 94-102. *)
Definition _receive_hand_state_cb (data : reflex_msgs.Hand) : M unit :=
  now ← get_rostime ;
  modify_hand (with_latest_update now) ;;
  log (EvLatestUpdate now) ;;
  h ← get_hand ;
  let ns := namespace h in
  motor_state_cb (ns +:+ "_f1") (reflex_msgs.motor data) 0 ;;
  motor_state_cb (ns +:+ "_f2") (reflex_msgs.motor data) 1 ;;
  motor_state_cb (ns +:+ "_f3") (reflex_msgs.motor data) 2 ;;
  motor_state_cb (ns +:+ "_preshape") (reflex_msgs.motor data) 3 ;;
  finger_state_cb (ns +:+ "_f1") (reflex_msgs.finger data) 0 ;;
  finger_state_cb (ns +:+ "_f2") (reflex_msgs.finger data) 1 ;;
  finger_state_cb (ns +:+ "_f3") (reflex_msgs.finger data) 2.

(** *** Command arbitration *)

(** Lines 139-151. *)
Definition _publish_speed_commands : M unit :=
  modify_motors (fmap (set_speed_update_occurred false)) ;;
  h ← get_hand ;
  m1 ← dict_get (motors h) "/reflex_takktile_f1" ;
  m2 ← dict_get (motors h) "/reflex_takktile_f2" ;
  m3 ← dict_get (motors h) "/reflex_takktile_f3" ;
  m4 ← dict_get (motors h) "/reflex_takktile_preshape" ;
  log (EvSetSpeedService [get_commanded_speed m1; get_commanded_speed m2;
                          get_commanded_speed m3; get_commanded_speed m4]).

(** Lines 153-166. *)
Definition _publish_position_commands : M unit :=
  modify_motors (fmap (set_position_update_occurred false)) ;;
  h ← get_hand ;
  m1 ← dict_get (motors h) "/reflex_takktile_f1" ;
  m2 ← dict_get (motors h) "/reflex_takktile_f2" ;
  m3 ← dict_get (motors h) "/reflex_takktile_f3" ;
  m4 ← dict_get (motors h) "/reflex_takktile_preshape" ;
  log (EvMotorCmdPub [get_commanded_position m1; get_commanded_position m2;
                      get_commanded_position m3; get_commanded_position m4]) ;;
  sleep (millis 10).

(** Lines 168-181. *)
Definition _publish_torque_commands : M unit :=
  modify_motors (fmap (set_torque_update_occurred false)) ;;
  h ← get_hand ;
  m1 ← dict_get (motors h) "/reflex_takktile_f1" ;
  m2 ← dict_get (motors h) "/reflex_takktile_f2" ;
  m3 ← dict_get (motors h) "/reflex_takktile_f3" ;
  m4 ← dict_get (motors h) "/reflex_takktile_preshape" ;
  log (EvMotorTorquePub [get_commanded_torque m1; get_commanded_torque m2;
                         get_commanded_torque m3; get_commanded_torque m4]) ;;
  sleep (millis 10).

(** Lines 124-137, repaired.  In the source the three tests of this chain
    end without their colon (lines 130, 133, 136), so the file as shipped is
    not valid Python and this method cannot run.  The definition below is
    the chain with the three colons restored.  It serves as one of the calls
    a hand may receive in the invariants over call sequences, which hold as
    well of a pass that never runs.  Where a statement evaluates it, it is
    about the chain as repaired and says so; none certifies that the shipped
    pass selects, emits or returns anything. *)
Definition _publish_motor_commands : M unit :=
  h ← get_hand ;
  if any_motor speed_update_occurred (motors h) then
    _publish_speed_commands
  else if any_motor position_update_occurred (motors h) then
    _publish_position_commands
  else if any_motor torque_update_occurred (motors h) then
    _publish_torque_commands
  else mret tt.

(** *** The control loop and its watchdog *)

(** [now.secs > hand.latest_update.secs + hand.comms_timeout] *)
Definition comms_timed_out (now : Time) (h : Hand) : bool :=
  negb (Qle_bool (inject_Z (secs now))
                 (inject_Z (secs (latest_update h)) + comms_timeout h)).

(** One period of [rospy.Rate(30)]. *)
Definition RATE_PERIOD : Z := 33333333.

(** The body of the loop of [main] (lines 190-194). *)
Definition main_iteration : M unit :=
  _publish_motor_commands ;;
  now ← get_rostime ;
  h ← get_hand ;
  when (comms_timed_out now h)
       (log (EvLogFatal (comms_timeout h)) ;;
        signal_shutdown "Comms timeout") ;;
  sleep RATE_PERIOD.

(** [while not rospy.is_shutdown(): ...], unrolled at most [fuel] times. *)
Fixpoint main_loop (fuel : nat) : M unit :=
  match fuel with
  | O => mret tt
  | S fuel' => fun w =>
      if is_shutdown w then (Ok tt, w)
      else (main_iteration ;; main_loop fuel') w
  end.

Definition main (fuel : nat) : M unit :=
  sleep (millis 2000) ;;
  __init__ ;;
  sleep (millis 500) ;;
  main_loop fuel.

(** *** Entry points *)

(** The three command topics whose handlers wrap their setters in the
    interlock toggles. *)
Inductive InboundCommand :=
  | CombinedCommand (data : reflex_msgs.Command)
  | AngleCommand (data : reflex_msgs.PoseCommand)
  | VelocityCommand (data : reflex_msgs.VelocityCommand).

Definition handle (c : InboundCommand) : M unit :=
  match c with
  | CombinedCommand data => _receive_cmd_cb data
  | AngleCommand data => _receive_angle_cmd_cb data
  | VelocityCommand data => _receive_vel_cmd_cb data
  end.

(** Everything the outside can ask of a constructed hand: a message on one
    of the subscribed topics, one of the two interlock services, or an
    arbitration pass of the control loop. *)
Inductive Call :=
  | CallCommand (c : InboundCommand)
  | CallForceCommand (data : reflex_msgs.ForceCommand)
  | CallHandState (data : reflex_msgs.Hand)
  | CallEnableTactileStops
  | CallDisableTactileStops
  | CallPublishMotorCommands.

Definition dispatch (c : Call) : M unit :=
  match c with
  | CallCommand c => handle c
  | CallForceCommand data => _receive_force_cmd_cb data
  | CallHandState data => _receive_hand_state_cb data
  | CallEnableTactileStops => enable_tactile_stops
  | CallDisableTactileStops => disable_tactile_stops
  | CallPublishMotorCommands => _publish_motor_commands
  end.

(** A sequence of calls served one after the other; a call that raises
    leaves the hand as it was at the raise and the next one is served. *)
Fixpoint serve (cs : list Call) (w : World) : World :=
  match cs with
  | [] => w
  | c :: cs' => serve cs' (exec (dispatch c) w)
  end.

End ReflexTakktileHand.

(** ** Vocabulary of the statements *)

(** The interlock flag of the hand in a world. *)
Definition interlock (w : World) : bool := tactile_stops_enabled (hand w).

(** A projection of the world that a computation never changes, whether it
    returns or raises. *)
Definition preserves {A X} (obs : World -> X) (c : M A) : Prop :=
  forall w, obs (c w).2 = obs w.

Definition disable_events : list Event :=
  [EvDisableCall; EvSleep (millis 50); EvDisableReturn].

Definition enable_events : list Event :=
  [EvEnableCall; EvSleep (millis 70); EvEnableReturn].

(** The setter calls a command handler makes, in program order. *)
Definition mutation_events (c : InboundCommand) : list Event :=
  match c with
  | CombinedCommand data =>
      [EvSetSpeeds (reflex_msgs.velocity data); EvSetAngles (reflex_msgs.pose data)]
  | AngleCommand data => [EvResetSpeeds; EvSetAngles data]
  | VelocityCommand data => [EvSetVelocities data]
  end.

(** The effect of those setter calls on the motors, in the same order. *)
Definition mutate {RH : ReflexHand} (c : InboundCommand)
    (ms : gmap string Motor) : gmap string Motor :=
  match c with
  | CombinedCommand data =>
      base_set_angles (reflex_msgs.pose data)
        (base_set_speeds (reflex_msgs.velocity data) ms)
  | AngleCommand data => base_set_angles data (base_reset_speeds ms)
  | VelocityCommand data => base_set_velocities data ms
  end.

Definition is_toggle (e : Event) : bool :=
  match e with
  | EvDisableCall | EvDisableReturn | EvEnableCall | EvEnableReturn => true
  | _ => false
  end.

(** The motor dictionary once every motor but the preshape one refers to the
    finger under its own key. *)
Definition connect_all (ns : string) (ms : gmap string Motor) : gmap string Motor :=
  map_imap (fun k m =>
              Some (if bool_decide (k <> ns +:+ "_preshape")
                    then set_finger (Some k) m else m)) ms.

(** The four dictionary keys the publishing methods read. *)
Definition joints_present (ms : gmap string Motor) : Prop :=
  is_Some (ms !! "/reflex_takktile_f1") /\
  is_Some (ms !! "/reflex_takktile_f2") /\
  is_Some (ms !! "/reflex_takktile_f3") /\
  is_Some (ms !! "/reflex_takktile_preshape").

(** The keys the feedback handler reads, in the order it reads them. *)
Definition joint_IDs (ns : string) : list string :=
  [ns +:+ "_f1"; ns +:+ "_f2"; ns +:+ "_f3"; ns +:+ "_preshape"].

Definition finger_IDs (ns : string) : list string :=
  [ns +:+ "_f1"; ns +:+ "_f2"; ns +:+ "_f3"].

Definition hand_complete (h : Hand) : Prop :=
  Forall (fun ID => is_Some (motors h !! ID)) (joint_IDs (namespace h)) /\
  Forall (fun ID => is_Some (fingers h !! ID)) (finger_IDs (namespace h)).

(** The callbacks a feedback batch reaches: motor record [i] goes to the
    [i]-th joint for as many records as there are, and the finger records
    are reached only once all four motor records have been routed. *)
Definition routed (ns : string) (data : reflex_msgs.Hand) : list Event :=
  zip_with EvMotorState (joint_IDs ns) (reflex_msgs.motor data) ++
  (if decide (4 <= length (reflex_msgs.motor data))%nat
   then zip_with EvFingerState (finger_IDs ns) (reflex_msgs.finger data)
   else []).

(** The index at which a short batch is found short. *)
Definition missing_index (data : reflex_msgs.Hand) : nat :=
  if decide (length (reflex_msgs.motor data) < 4)%nat
  then length (reflex_msgs.motor data)
  else length (reflex_msgs.finger data).

(** The finger object a motor refers to, as found in the dictionary. *)
Definition finger_of (h : Hand) (m : Motor) : option Finger :=
  finger m ≫= (fingers h !!.).

Inductive CommandClass := Speed | Position | Torque.

Definition class_of (e : Event) : option CommandClass :=
  match e with
  | EvSetSpeedService _ => Some Speed
  | EvMotorCmdPub _ => Some Position
  | EvMotorTorquePub _ => Some Torque
  | _ => None
  end.

(** The command classes emitted along a trace, in order. *)
Definition emitted (t : list Event) : list CommandClass := omap class_of t.

(** ** Vocabulary of the further properties *)

Definition is_shutdown_signal (e : Event) : bool :=
  match e with
  | EvSignalShutdown _ => true
  | _ => false
  end.

(** How many times [rospy.signal_shutdown] is called along a trace. *)
Definition shutdown_signals (t : list Event) : nat :=
  length (filter (fun e => is_shutdown_signal e = true) t).

(** The calls whose code assigns [tactile_stops_enabled]. *)
Definition toggles_interlock (c : Call) : bool :=
  match c with
  | CallForceCommand _ | CallEnableTactileStops | CallDisableTactileStops => true
  | _ => false
  end.

Definition is_feedback (c : Call) : bool :=
  match c with
  | CallHandState _ => true
  | _ => false
  end.

(** The calls that reach a setter of the base class. *)
Definition calls_setter (c : Call) : bool :=
  match c with
  | CallCommand _ | CallForceCommand _ => true
  | _ => false
  end.

(** What the control loop reads of the world besides the motors: the
    watchdog fields, the shutdown flag and the shutdown calls made so far. *)
Definition loop_state (w : World) : Q * Time * bool * nat :=
  (comms_timeout (hand w), latest_update (hand w), is_shutdown w,
   shutdown_signals (trace w)).

(** ** Reference implementations of the interfaces *)

(** Modelled from the spec: the motor class is outside this file.  A motor
    mirrors its setpoints and the last feedback record; the getters return
    the last commanded value; the tactile-stop toggles switch the protective
    mode of the motor. *)
Definition spec_motor : MotorClass := {|
  new_motor := fun _ => mkMotor false false false None 0 0 0 false None;
  get_commanded_speed := commanded_speed;
  get_commanded_position := commanded_position;
  get_commanded_torque := commanded_torque;
  motor_disable_tactile_stops := fun m =>
    mkMotor (speed_update_occurred m) (position_update_occurred m)
            (torque_update_occurred m) (finger m) (commanded_speed m)
            (commanded_position m) (commanded_torque m) false (motor_state m);
  motor_enable_tactile_stops := fun m =>
    mkMotor (speed_update_occurred m) (position_update_occurred m)
            (torque_update_occurred m) (finger m) (commanded_speed m)
            (commanded_position m) (commanded_torque m) true (motor_state m);
  motor_receive_state_cb := fun r _ m =>
    mkMotor (speed_update_occurred m) (position_update_occurred m)
            (torque_update_occurred m) (finger m) (commanded_speed m)
            (commanded_position m) (commanded_torque m) (tactile_stops m)
            (Some r) |}.

(** Modelled from the spec: the finger class is outside this file.  A finger
    mirrors the last tactile and proximal feedback it was given. *)
Definition spec_finger : FingerClass := {|
  new_finger := mkFinger None;
  finger_receive_state_cb := fun r _ => mkFinger (Some r) |}.

Definition command_speed (v : Q) (m : Motor) : Motor :=
  mkMotor true (position_update_occurred m) (torque_update_occurred m)
          (finger m) v (commanded_position m) (commanded_torque m)
          (tactile_stops m) (motor_state m).

Definition command_position (v : Q) (m : Motor) : Motor :=
  mkMotor (speed_update_occurred m) true (torque_update_occurred m)
          (finger m) (commanded_speed m) v (commanded_torque m)
          (tactile_stops m) (motor_state m).

Definition command_torque (v : Q) (m : Motor) : Motor :=
  mkMotor (speed_update_occurred m) (position_update_occurred m) true
          (finger m) (commanded_speed m) (commanded_position m) v
          (tactile_stops m) (motor_state m).

Definition per_joint (set : Q -> Motor -> Motor) (c : reflex_msgs.Setpoints)
    (ms : gmap string Motor) : gmap string Motor :=
  alter (set (reflex_msgs.preshape c)) "/reflex_takktile_preshape"
    (alter (set (reflex_msgs.f3 c)) "/reflex_takktile_f3"
      (alter (set (reflex_msgs.f2 c)) "/reflex_takktile_f2"
        (alter (set (reflex_msgs.f1 c)) "/reflex_takktile_f1" ms))).

(** Modelled from the spec: the base class is outside this file.  Each setter
    writes the setpoint of its class on every actuator and marks it dirty
    (section 2: a command sets the values and the dirty flags).  What
    [reset_speeds] writes is not described there; the reference class makes
    it write nothing, and no statement depends on this choice. *)
Definition spec_hand : ReflexHand := {|
  base_set_speeds := per_joint command_speed;
  base_set_angles := per_joint command_position;
  base_set_velocities := per_joint command_speed;
  base_set_force_cmds := per_joint command_torque;
  base_reset_speeds := fun ms => ms |}.

(** The order in which the finite map lists its items, as one dictionary
    order to run the model with. *)
Definition gmap_order : DictOrder := {|
  dict_items := fun V d => map_to_list d;
  dict_items_perm := fun V d => reflexivity (map_to_list d) |}.

(** ** Sample worlds *)

(** The process before the constructor has run, at time 100 s; the
    attributes the constructor is to assign hold other values: the interlock
    flag is set, the timeout is 0. *)
Definition boot : World :=
  mkWorld (mkHand "" ∅ ∅ true 0 (mkTime 0 0)) (mkTime 100 0) false [].

(** The hand as constructed, with the reference classes. *)
Definition fresh : World :=
  exec (__init__ (MC := spec_motor) (FC := spec_finger) (DO := gmap_order))
       boot.

(** The same hand after a call of the enable service. *)
Definition armed : World :=
  exec (enable_tactile_stops (MC := spec_motor)) fresh.

Definition sample_pose : reflex_msgs.PoseCommand :=
  reflex_msgs.mkSetpoints (1 # 10) (2 # 10) (3 # 10) 0.

Definition sample_velocity : reflex_msgs.VelocityCommand :=
  reflex_msgs.mkSetpoints 2 2 2 2.

Definition sample_force : reflex_msgs.ForceCommand :=
  reflex_msgs.mkSetpoints 5 5 5 0.

(** The fresh hand after a combined command: every actuator has a speed and
    a position to publish. *)
Definition commanded : World :=
  exec (_receive_cmd_cb (MC := spec_motor) (RH := spec_hand)
          (reflex_msgs.mkCommand sample_pose sample_velocity)) fresh.

Definition sample_motor_record (n : Z) : reflex_msgs.Motor :=
  reflex_msgs.mkMotor (inject_Z n) 0.

Definition sample_finger_record (n : Z) : reflex_msgs.Finger :=
  reflex_msgs.mkFinger (inject_Z n) [].

Definition full_batch : reflex_msgs.Hand :=
  reflex_msgs.mkHand
    [sample_motor_record 0; sample_motor_record 1;
     sample_motor_record 2; sample_motor_record 3]
    [sample_finger_record 0; sample_finger_record 1; sample_finger_record 2].

(** A batch with a single motor record and no finger record. *)
Definition short_batch : reflex_msgs.Hand :=
  reflex_msgs.mkHand [sample_motor_record 7] [].

(** A reference motor as the constructor leaves it. *)
Definition connected_motor (f : option string) : Motor :=
  mkMotor false false false f 0 0 0 false None.

(** The fresh hand one second after its construction. *)
Definition later : World :=
  mkWorld (hand fresh) (time_add (clock fresh) (seconds 1))
          (is_shutdown fresh) (trace fresh).

(** The fresh hand after a force command: every actuator has a torque to
    publish. *)
Definition forced : World :=
  exec (_receive_force_cmd_cb (MC := spec_motor) (RH := spec_hand)
          sample_force) fresh.

(** A batch with its four motor records and only two finger records. *)
Definition two_finger_batch : reflex_msgs.Hand :=
  reflex_msgs.mkHand
    [sample_motor_record 0; sample_motor_record 1;
     sample_motor_record 2; sample_motor_record 3]
    [sample_finger_record 5; sample_finger_record 6].


(** The hand of the base constructor with its three fingers, before the
    motors are connected, and the same hand without the third finger. *)
Definition unconnected : World :=
  mkWorld
    (with_fingers
       (<["/reflex_takktile_f1" := mkFinger None]>
        (<["/reflex_takktile_f2" := mkFinger None]>
         (<["/reflex_takktile_f3" := mkFinger None]> ∅)))
       (ReflexHand_init (MC := spec_motor) "/reflex_takktile" (hand boot)))
    (mkTime 100 0) false [].

Definition two_fingered : World :=
  mkWorld
    (with_fingers (delete "/reflex_takktile_f3" (fingers (hand unconnected)))
                  (hand unconnected))
    (mkTime 100 0) false [].

(** A batch with one motor record and one finger record too many. *)
Definition long_batch : reflex_msgs.Hand :=
  reflex_msgs.mkHand
    (reflex_msgs.motor full_batch ++ [sample_motor_record 9])
    (reflex_msgs.finger full_batch ++ [sample_finger_record 9]).

(** The fresh hand seven seconds after its construction, with no feedback
    in between. *)
Definition stale : World :=
  mkWorld (hand fresh) (time_add (clock fresh) (seconds 7))
          (is_shutdown fresh) (trace fresh).

(** ** How computations run *)

Lemma bind_ok {A B} (c : M A) (f : A -> M B) w a w' :
  c w = (Ok a, w') -> (c ≫= f) w = f a w'.
Proof. intros E. unfold mbind, M_bind. by rewrite E. Qed.

Lemma bind_raise {A B} (c : M A) (f : A -> M B) w e w' :
  c w = (Raise e, w') -> (c ≫= f) w = (Raise e, w').
Proof. intros E. unfold mbind, M_bind. by rewrite E. Qed.

Lemma preserves_ret {A X} (obs : World -> X) (a : A) : preserves obs (mret a).
Proof. by intros w. Qed.

Lemma preserves_raise {A X} (obs : World -> X) e : preserves obs (@raise A e).
Proof. by intros w. Qed.

Lemma preserves_bind {A B X} (obs : World -> X) (c : M A) (f : A -> M B) :
  preserves obs c -> (forall a, preserves obs (f a)) -> preserves obs (c ≫= f).
Proof.
  intros Hc Hf w. unfold mbind, M_bind.
  specialize (Hc w). destruct (c w) as [[a|e] w1]; simpl in *.
  - by rewrite Hf.
  - done.
Qed.

Lemma preserves_when {X} (obs : World -> X) b c :
  preserves obs c -> preserves obs (when b c).
Proof. destruct b; [done | intros _; apply preserves_ret]. Qed.

Lemma preserves_dict_get {V X} (obs : World -> X) (d : gmap string V) k :
  preserves obs (dict_get d k).
Proof. unfold dict_get. destruct (d !! k); [apply preserves_ret | apply preserves_raise]. Qed.

Lemma preserves_list_get {V X} (obs : World -> X) (l : list V) i :
  preserves obs (list_get l i).
Proof. unfold list_get. destruct (l !! i); [apply preserves_ret | apply preserves_raise]. Qed.

Lemma interlock_get_hand : preserves interlock get_hand.
Proof. by intros w. Qed.

Lemma interlock_get_rostime : preserves interlock get_rostime.
Proof. by intros w. Qed.

Lemma interlock_log e : preserves interlock (log e).
Proof. by intros w. Qed.

Lemma interlock_sleep d : preserves interlock (sleep d).
Proof. by intros w. Qed.

Lemma interlock_modify_motors f : preserves interlock (modify_motors f).
Proof. by intros w. Qed.

Lemma interlock_modify_fingers f :
  preserves interlock (modify_hand (fun h => with_fingers (f h) h)).
Proof. by intros w. Qed.

Lemma interlock_modify_latest_update t :
  preserves interlock (modify_hand (with_latest_update t)).
Proof. by intros w. Qed.

Create HintDb interlock_frame.

#[local] Hint Resolve preserves_ret preserves_raise preserves_when
  preserves_dict_get preserves_list_get interlock_get_hand
  interlock_get_rostime interlock_log interlock_sleep interlock_modify_motors
  interlock_modify_fingers interlock_modify_latest_update : interlock_frame.

Ltac frame_interlock :=
  repeat (first [ apply preserves_bind; [ | intros ? ]
                | solve [ auto with interlock_frame ] ]).

(** Runs the straight-line computation [c] from the world [w]: names its
    result and its final world and replaces them by what it computes. *)
Ltac run c w :=
  let r := fresh "r" in
  let w' := fresh "w'" in
  let E := fresh "E" in
  destruct (c w) as [r w'] eqn:E;
  unfold handle, _receive_cmd_cb, _receive_angle_cmd_cb, _receive_vel_cmd_cb,
    _receive_force_cmd_cb, when in E;
  unfold disable_tactile_stops, enable_tactile_stops, set_speeds, set_angles,
    set_velocities, set_force_cmds, reset_speeds in E;
  unfold modify_motors in E;
  unfold modify_hand, get_hand, get_rostime, log, sleep in E;
  unfold mbind, M_bind, mret, M_ret in E;
  cbn in E;
  injection E as <- <-.

Ltac flatten_trace := rewrite <- ?app_assoc; simpl.

Section Properties.

Context {MC : MotorClass} {FC : FingerClass} {RH : ReflexHand} {DO : DictOrder}.

Lemma interlock_motor_state_cb ID data i :
  preserves interlock (motor_state_cb ID data i).
Proof. unfold motor_state_cb. frame_interlock. Qed.

Lemma interlock_finger_state_cb ID data i :
  preserves interlock (finger_state_cb ID data i).
Proof. unfold finger_state_cb. frame_interlock. Qed.

Lemma interlock_receive_hand_state_cb data :
  preserves interlock (_receive_hand_state_cb data).
Proof.
  unfold _receive_hand_state_cb.
  pose proof interlock_motor_state_cb. pose proof interlock_finger_state_cb.
  frame_interlock.
Qed.

Lemma interlock_publish_motor_commands :
  preserves interlock _publish_motor_commands.
Proof.
  unfold _publish_motor_commands, _publish_speed_commands,
    _publish_position_commands, _publish_torque_commands.
  apply preserves_bind; [auto with interlock_frame | intros h].
  repeat case_match; frame_interlock.
Qed.

(** What a wrapped handler does, as one equation on the trace and the flag. *)
Lemma handle_run (c : InboundCommand) (w : World) :
  outcome (handle c) w = Ok tt /\
  interlock (exec (handle c) w) = interlock w /\
  trace (exec (handle c) w) =
    trace w ++ (if interlock w
                then disable_events ++ mutation_events c ++ enable_events
                else mutation_events c) /\
  motors (hand (exec (handle c) w)) =
    (if interlock w
     then motor_enable_tactile_stops <$>
            mutate c (motor_disable_tactile_stops <$> motors (hand w))
     else mutate c (motors (hand w))).
Proof.
  destruct w as [[ns ms fs on q lu] t b tr]. unfold interlock, exec, outcome.
  destruct c as [data|data|data], on;
    match goal with |- context [handle ?c ?w] => run (handle c) w end;
    cbn; flatten_trace; done.
Qed.

Lemma force_run (data : reflex_msgs.ForceCommand) (w : World) :
  outcome (_receive_force_cmd_cb data) w = Ok tt /\
  interlock (exec (_receive_force_cmd_cb data) w) = false /\
  trace (exec (_receive_force_cmd_cb data) w) =
    trace w ++ disable_events ++ [EvResetSpeeds; EvSetForceCmds data] /\
  motors (hand (exec (_receive_force_cmd_cb data) w)) =
    base_set_force_cmds data
      (base_reset_speeds (motor_disable_tactile_stops <$> motors (hand w))).
Proof.
  destruct w as [[ns ms fs on q lu] t b tr]. unfold interlock, exec, outcome.
  match goal with |- context [_receive_force_cmd_cb data ?w] =>
    run (_receive_force_cmd_cb data) w end.
  cbn. flatten_trace. done.
Qed.

(** No call other than the enable service turns a disabled interlock on. *)
Lemma dispatch_keeps_disabled (c : Call) (w : World) :
  c <> CallEnableTactileStops ->
  interlock w = false -> interlock (exec (dispatch c) w) = false.
Proof.
  intros Hc Hw. destruct c as [c|data|data| | |]; simpl.
  - destruct (handle_run c w) as (_ & -> & _). done.
  - apply force_run.
  - unfold exec. by rewrite interlock_receive_hand_state_cb.
  - done.
  - by destruct w.
  - unfold exec. by rewrite interlock_publish_motor_commands.
Qed.

Lemma serve_keeps_disabled (cs : list Call) (w : World) :
  Forall (fun c => c <> CallEnableTactileStops) cs ->
  interlock w = false -> interlock (serve cs w) = false.
Proof.
  intros Hcs. revert w.
  induction Hcs as [|c cs Hc _ IH]; intros w Hw; simpl; [done|].
  apply IH. by apply dispatch_keeps_disabled.
Qed.

(** *** Construction *)

Lemma elem_of_dict_items {V} (d : gmap string V) (k : string) (v : V) :
  (k, v) ∈ dict_items d <-> d !! k = Some v.
Proof. by rewrite (dict_items_perm V d), elem_of_map_to_list. Qed.

Lemma set_finger_twice (f : option string) (x : option Motor) :
  set_finger f <$> (set_finger f <$> x) = set_finger f <$> x.
Proof. by destruct x. Qed.

(** The dictionary the loop builds from the items it has visited. *)
Lemma connect_loop_lookup (ns : string) (l : list (string * Motor))
    (ms : gmap string Motor) (k : string) :
  foldl (fun acc item =>
           if bool_decide (item.1 <> ns +:+ "_preshape")
           then alter (set_finger (Some item.1)) item.1 acc else acc) ms l !! k =
  if bool_decide (k ∈ l.*1 /\ k <> ns +:+ "_preshape")
  then set_finger (Some k) <$> ms !! k else ms !! k.
Proof.
  revert ms. induction l as [|[ID m] l IH]; intros ms; simpl.
  - done.
  - rewrite IH. clear IH.
    destruct (decide (k = ns +:+ "_preshape")) as [->|Hk].
    + rewrite !(bool_decide_eq_false_2 (_ /\ _)) by tauto.
      case_bool_decide; [|done]. by rewrite lookup_alter_ne.
    + destruct (decide (k = ID)) as [->|Hne].
      * rewrite (bool_decide_eq_true_2 (ID <> _)) by done.
        rewrite lookup_alter_eq.
        rewrite (bool_decide_eq_true_2 (ID ∈ ID :: _ /\ _))
          by (split; [apply list_elem_of_here | done]).
        case_bool_decide; by rewrite ?set_finger_twice.
      * assert ((if bool_decide (ID <> ns +:+ "_preshape")
                 then alter (set_finger (Some ID)) ID ms else ms) !! k =
                ms !! k) as ->
          by (case_bool_decide; [by rewrite lookup_alter_ne | done]).
        apply (f_equal (fun c : bool =>
                          if c then set_finger (Some k) <$> ms !! k
                          else ms !! k)).
        apply bool_decide_ext. rewrite elem_of_cons. tauto.
Qed.

Lemma connect_loop_ok ns fs on q lu t b tr (l : list (string * Motor)) :
  forall ms,
    (forall ID m, (ID, m) ∈ l -> ID <> ns +:+ "_preshape" -> is_Some (fs !! ID)) ->
    for_each l connect_motor (mkWorld (mkHand ns ms fs on q lu) t b tr) =
    (Ok tt,
     mkWorld
       (mkHand ns
          (foldl (fun acc item =>
                    if bool_decide (item.1 <> ns +:+ "_preshape")
                    then alter (set_finger (Some item.1)) item.1 acc else acc)
                 ms l)
          fs on q lu) t b tr).
Proof.
  induction l as [|[ID m] l IH]; intros ms Hl; simpl; [done|].
  assert (connect_motor (ID, m) (mkWorld (mkHand ns ms fs on q lu) t b tr) =
          (Ok tt,
           mkWorld
             (mkHand ns
                (if bool_decide (ID <> ns +:+ "_preshape")
                 then alter (set_finger (Some ID)) ID ms else ms)
                fs on q lu) t b tr)) as Hstep.
  { unfold connect_motor, get_hand, dict_get, modify_motors, modify_hand,
      mbind, M_bind, mret, M_ret. cbn.
    case_bool_decide; [|done].
    destruct (Hl ID m) as [f Hf]; [apply list_elem_of_here | done |].
    by rewrite Hf. }
  rewrite (bind_ok _ _ _ _ _ Hstep). apply IH.
  intros ID' m' Hin. apply (Hl ID' m'). by apply list_elem_of_further.
Qed.

Lemma connect_loop_raise ns fs on q lu t b tr (l : list (string * Motor)) :
  forall ms,
    Exists (fun item => item.1 <> ns +:+ "_preshape" /\ fs !! item.1 = None) l ->
    exists ID ms',
      ID ∈ l.*1 /\ ID <> ns +:+ "_preshape" /\ fs !! ID = None /\
      for_each l connect_motor (mkWorld (mkHand ns ms fs on q lu) t b tr) =
        (Raise (KeyError ID), mkWorld (mkHand ns ms' fs on q lu) t b tr).
Proof.
  induction l as [|[ID m] l IH]; intros ms Hbad; simpl.
  - by apply Exists_nil in Hbad.
  - destruct (decide (ID <> ns +:+ "_preshape" /\ fs !! ID = None)) as [[Hne Hf]|Hgood].
    + exists ID, ms. split; [apply list_elem_of_here|]. do 2 (split; [done|]).
      apply bind_raise.
      unfold connect_motor, get_hand, dict_get, modify_motors, modify_hand,
        raise, mbind, M_bind, mret, M_ret. cbn.
      rewrite bool_decide_eq_true_2 by done. by rewrite Hf.
    + apply Exists_cons in Hbad as [Hbad|Hbad]; [done|].
      destruct (IH (if bool_decide (ID <> ns +:+ "_preshape")
                    then alter (set_finger (Some ID)) ID ms else ms) Hbad)
        as (ID' & ms' & Hin & Hne & Hf & Hrun).
      exists ID', ms'. split; [by apply list_elem_of_further|].
      do 2 (split; [done|]).
      erewrite bind_ok; [exact Hrun|].
      unfold connect_motor, get_hand, dict_get, modify_motors, modify_hand,
        raise, mbind, M_bind, mret, M_ret. cbn.
      case_bool_decide; [|done].
      destruct (fs !! ID) eqn:Hf'; [done|]. destruct Hgood. done.
Qed.

(** The loop over the items, in whatever order, on a hand where every motor
    to connect has its finger. *)
Lemma connect_run (w : World) :
  (forall ID m, motors (hand w) !! ID = Some m ->
                ID <> namespace (hand w) +:+ "_preshape" ->
                is_Some (fingers (hand w) !! ID)) ->
  _connect_motors_to_fingers w =
    (Ok tt,
     mkWorld (with_motors (connect_all (namespace (hand w)) (motors (hand w)))
                          (hand w))
             (clock w) (is_shutdown w) (trace w)).
Proof.
  destruct w as [[ns ms fs on q lu] t b tr]. simpl. intros Hfs.
  unfold _connect_motors_to_fingers.
  erewrite bind_ok by reflexivity. simpl.
  rewrite connect_loop_ok
    by (intros ID m Hin; apply (Hfs ID m); by apply elem_of_dict_items).
  match goal with
  | |- context [foldl ?f ms ?l] =>
      assert (foldl f ms l = connect_all ns ms) as ->; [|reflexivity]
  end.
  apply map_eq. intros k.
  rewrite connect_loop_lookup. unfold connect_all. rewrite map_lookup_imap.
  destruct (ms !! k) as [m|] eqn:Hk; simpl; [|by repeat case_bool_decide].
  rewrite (bool_decide_ext (k ∈ (dict_items ms).*1 /\ k <> ns +:+ "_preshape")
                           (k <> ns +:+ "_preshape")); [by case_bool_decide|].
  split; [tauto|]. intros Hne. split; [|done].
  apply list_elem_of_fmap. exists (k, m). split; [done|].
  by apply elem_of_dict_items.
Qed.

(** The constructor, as one equation. *)
Lemma init_full (w : World) :
  __init__ w =
    (Ok tt,
     mkWorld
       (mkHand "/reflex_takktile"
          (connect_all "/reflex_takktile"
             (motors (ReflexHand_init "/reflex_takktile" (hand w))))
          (<["/reflex_takktile_f1" := new_finger]>
           (<["/reflex_takktile_f2" := new_finger]>
            (<["/reflex_takktile_f3" := new_finger]> ∅)))
          false 5%Q (clock w))
       (clock w) (is_shutdown w) (trace w)).
Proof.
  destruct w as [h t b tr]. unfold __init__.
  erewrite bind_ok by reflexivity.
  erewrite bind_ok by reflexivity.
  erewrite bind_ok by reflexivity.
  erewrite bind_ok.
  2: { apply connect_run. simpl.
       apply (bool_decide_unpack _). vm_compute. exact I. }
  reflexivity.
Qed.

Lemma init_run (w : World) :
  outcome __init__ w = Ok tt /\
  interlock (exec __init__ w) = false /\
  trace (exec __init__ w) = trace w.
Proof. unfold interlock, exec, outcome. by rewrite init_full. Qed.

(** The constructed hand has every key the publishing methods and the
    feedback handler read. *)
Lemma init_complete (w : World) :
  namespace (hand (exec __init__ w)) = "/reflex_takktile" /\
  joints_present (motors (hand (exec __init__ w))) /\
  hand_complete (hand (exec __init__ w)).
Proof.
  unfold exec, joints_present, hand_complete. rewrite init_full. simpl.
  split; [reflexivity|].
  split; [repeat split; vm_compute; eauto|].
  split; vm_compute; repeat constructor; eauto.
Qed.

(** *** Publishing *)

Lemma any_motor_true (flag : Motor -> bool) (ms : gmap string Motor) :
  any_motor flag ms = true <-> exists ID m, ms !! ID = Some m /\ flag m = true.
Proof.
  unfold any_motor. rewrite existsb_exists. split.
  - intros (m & Hin & Hm). apply list_elem_of_In, list_elem_of_fmap in Hin.
    destruct Hin as ([ID m'] & -> & Hin). apply elem_of_map_to_list in Hin.
    by exists ID, m'.
  - intros (ID & m & Hin & Hm). exists m. split; [|done].
    apply list_elem_of_In, list_elem_of_fmap. exists (ID, m). split; [done|].
    by apply elem_of_map_to_list.
Qed.

Lemma publish_speed_run h t b tr m1 m2 m3 m4 :
  motors h !! "/reflex_takktile_f1" = Some m1 ->
  motors h !! "/reflex_takktile_f2" = Some m2 ->
  motors h !! "/reflex_takktile_f3" = Some m3 ->
  motors h !! "/reflex_takktile_preshape" = Some m4 ->
  _publish_speed_commands (mkWorld h t b tr) =
    (Ok tt,
     mkWorld (with_motors (set_speed_update_occurred false <$> motors h) h) t b
       (tr ++ [EvSetSpeedService
                 [get_commanded_speed (set_speed_update_occurred false m1);
                  get_commanded_speed (set_speed_update_occurred false m2);
                  get_commanded_speed (set_speed_update_occurred false m3);
                  get_commanded_speed (set_speed_update_occurred false m4)]])).
Proof.
  intros H1' H2' H3' H4'.
  unfold _publish_speed_commands, modify_motors, modify_hand, get_hand, log,
    dict_get, mbind, M_bind. cbn.
  rewrite !lookup_fmap, H1', H2', H3', H4'. reflexivity.
Qed.

Lemma publish_position_run h t b tr m1 m2 m3 m4 :
  motors h !! "/reflex_takktile_f1" = Some m1 ->
  motors h !! "/reflex_takktile_f2" = Some m2 ->
  motors h !! "/reflex_takktile_f3" = Some m3 ->
  motors h !! "/reflex_takktile_preshape" = Some m4 ->
  _publish_position_commands (mkWorld h t b tr) =
    (Ok tt,
     mkWorld (with_motors (set_position_update_occurred false <$> motors h) h)
       (time_add t (millis 10)) b
       (tr ++ [EvMotorCmdPub
                 [get_commanded_position (set_position_update_occurred false m1);
                  get_commanded_position (set_position_update_occurred false m2);
                  get_commanded_position (set_position_update_occurred false m3);
                  get_commanded_position (set_position_update_occurred false m4)];
               EvSleep (millis 10)])).
Proof.
  intros H1' H2' H3' H4'.
  unfold _publish_position_commands, modify_motors, modify_hand, get_hand, log,
    sleep, dict_get, mbind, M_bind. cbn.
  rewrite !lookup_fmap, H1', H2', H3', H4'. cbn. flatten_trace. reflexivity.
Qed.

Lemma publish_torque_run h t b tr m1 m2 m3 m4 :
  motors h !! "/reflex_takktile_f1" = Some m1 ->
  motors h !! "/reflex_takktile_f2" = Some m2 ->
  motors h !! "/reflex_takktile_f3" = Some m3 ->
  motors h !! "/reflex_takktile_preshape" = Some m4 ->
  _publish_torque_commands (mkWorld h t b tr) =
    (Ok tt,
     mkWorld (with_motors (set_torque_update_occurred false <$> motors h) h)
       (time_add t (millis 10)) b
       (tr ++ [EvMotorTorquePub
                 [get_commanded_torque (set_torque_update_occurred false m1);
                  get_commanded_torque (set_torque_update_occurred false m2);
                  get_commanded_torque (set_torque_update_occurred false m3);
                  get_commanded_torque (set_torque_update_occurred false m4)];
               EvSleep (millis 10)])).
Proof.
  intros H1' H2' H3' H4'.
  unfold _publish_torque_commands, modify_motors, modify_hand, get_hand, log,
    sleep, dict_get, mbind, M_bind. cbn.
  rewrite !lookup_fmap, H1', H2', H3', H4'. cbn. flatten_trace. reflexivity.
Qed.

(** *** Feedback *)

Lemma joint_ne (ns a b : string) : a <> b -> ns +:+ a <> ns +:+ b.
Proof. intros Hab E. by apply (inj (String.append ns)) in E. Qed.

Ltac run_feedback :=
  unfold _receive_hand_state_cb, motor_state_cb, finger_state_cb,
    modify_motors, modify_hand, get_hand, get_rostime, log, dict_get,
    list_get, raise, mbind, M_bind, mret, M_ret; cbn;
  repeat (first [ match goal with
                  | E : ?m !! ?k = Some _ |- context [?m !! ?k] => rewrite E
                  end
                | rewrite lookup_insert_ne by (by apply joint_ne) ];
          cbn).

(** A batch of the fixed shape on a complete hand. *)
Lemma hand_state_run ns ms fs on q lu t b tr
    a1 a2 a3 a4 g1 g2 g3 r0 r1 r2 r3 s0 s1 s2 :
  ms !! (ns +:+ "_f1") = Some a1 ->
  ms !! (ns +:+ "_f2") = Some a2 ->
  ms !! (ns +:+ "_f3") = Some a3 ->
  ms !! (ns +:+ "_preshape") = Some a4 ->
  fs !! (ns +:+ "_f1") = Some g1 ->
  fs !! (ns +:+ "_f2") = Some g2 ->
  fs !! (ns +:+ "_f3") = Some g3 ->
  let h := mkHand ns ms fs on q lu in
  _receive_hand_state_cb (reflex_msgs.mkHand [r0; r1; r2; r3] [s0; s1; s2])
    (mkWorld h t b tr) =
  (Ok tt,
   mkWorld
     (mkHand ns
        (<[ns +:+ "_preshape" := motor_receive_state_cb r3 (finger_of h a4) a4]>
         (<[ns +:+ "_f3" := motor_receive_state_cb r2 (finger_of h a3) a3]>
          (<[ns +:+ "_f2" := motor_receive_state_cb r1 (finger_of h a2) a2]>
           (<[ns +:+ "_f1" := motor_receive_state_cb r0 (finger_of h a1) a1]> ms))))
        (<[ns +:+ "_f3" := finger_receive_state_cb s2 g3]>
         (<[ns +:+ "_f2" := finger_receive_state_cb s1 g2]>
          (<[ns +:+ "_f1" := finger_receive_state_cb s0 g1]> fs)))
        on q t)
     t b
     (tr ++ EvLatestUpdate t :: routed ns (reflex_msgs.mkHand [r0; r1; r2; r3] [s0; s1; s2]))).
Proof.
  intros A1 A2 A3 A4 G1 G2 G3 h. subst h.
  run_feedback. flatten_trace. reflexivity.
Qed.

Lemma hand_state_events (data : reflex_msgs.Hand) (w : World) :
  hand_complete (hand w) ->
  outcome (_receive_hand_state_cb data) w =
    (if decide (4 <= length (reflex_msgs.motor data) /\
                3 <= length (reflex_msgs.finger data))%nat
     then Ok tt else Raise (IndexError (missing_index data))) /\
  latest_update (hand (exec (_receive_hand_state_cb data) w)) = clock w /\
  trace (exec (_receive_hand_state_cb data) w) =
    trace w ++ EvLatestUpdate (clock w) :: routed (namespace (hand w)) data /\
  (forall i ID r a,
     joint_IDs (namespace (hand w)) !! i = Some ID ->
     reflex_msgs.motor data !! i = Some r ->
     motors (hand w) !! ID = Some a ->
     motors (hand (exec (_receive_hand_state_cb data) w)) !! ID =
       Some (motor_receive_state_cb r (finger_of (hand w) a) a)) /\
  (forall i ID,
     joint_IDs (namespace (hand w)) !! i = Some ID ->
     reflex_msgs.motor data !! i = None ->
     motors (hand (exec (_receive_hand_state_cb data) w)) !! ID =
       motors (hand w) !! ID) /\
  (forall i ID r f,
     finger_IDs (namespace (hand w)) !! i = Some ID ->
     (4 <= length (reflex_msgs.motor data))%nat ->
     reflex_msgs.finger data !! i = Some r ->
     fingers (hand w) !! ID = Some f ->
     fingers (hand (exec (_receive_hand_state_cb data) w)) !! ID =
       Some (finger_receive_state_cb r f)) /\
  ((length (reflex_msgs.motor data) < 4)%nat ->
     fingers (hand (exec (_receive_hand_state_cb data) w)) = fingers (hand w)) /\
  (forall i ID,
     finger_IDs (namespace (hand w)) !! i = Some ID ->
     reflex_msgs.finger data !! i = None ->
     fingers (hand (exec (_receive_hand_state_cb data) w)) !! ID =
       fingers (hand w) !! ID).
Proof.
  destruct w as [[ns ms fs on q lu] t b tr]. intros [Hms Hfs].
  unfold joint_IDs, finger_IDs in *. simpl in *.
  apply Forall_cons in Hms as [[a1 A1] Hms]. apply Forall_cons in Hms as [[a2 A2] Hms].
  apply Forall_cons in Hms as [[a3 A3] Hms]. apply Forall_cons in Hms as [[a4 A4] _].
  apply Forall_cons in Hfs as [[g1 G1] Hfs]. apply Forall_cons in Hfs as [[g2 G2] Hfs].
  apply Forall_cons in Hfs as [[g3 G3] _].
  destruct data as [rs ss]. unfold exec, outcome, routed, missing_index. simpl.
  destruct rs as [|r0 [|r1 [|r2 [|r3 rs]]]];
    [ | | | | destruct ss as [|s0 [|s1 [|s2 ss]]] ];
    run_feedback; flatten_trace;
    (split; [repeat case_decide; simpl in *; try lia; done|]);
    (split; [done|]); (split; [done|]);
    (split; [intros i ID r a Hi Hr Ha;
             destruct i as [|[|[|[|i]]]]; simpl in Hi, Hr; simplify_eq;
             unfold finger_of; simpl;
             by rewrite ?lookup_insert_ne, lookup_insert_eq
               by (by apply joint_ne)|]);
    (split; [intros i ID Hi Hr;
             destruct i as [|[|[|[|i]]]]; simpl in Hi, Hr; simplify_eq;
             by rewrite ?lookup_insert_ne by (by apply joint_ne)|]);
    (split; [intros i ID r f Hi Hlen Hr Hf; simpl in Hlen; try lia;
             destruct i as [|[|[|i]]]; simpl in Hi, Hr; simplify_eq;
             by rewrite ?lookup_insert_ne, lookup_insert_eq
               by (by apply joint_ne)|]);
    (split; [intros Hlen; simpl in Hlen; try lia; reflexivity|]);
    intros i ID Hi Hr;
    destruct i as [|[|[|i]]]; simpl in Hi, Hr; simplify_eq;
    by rewrite ?lookup_insert_ne by (by apply joint_ne).
Qed.

(** C7.  On a hand that has its four joints and three fingers, a batch of
    four motor records and three finger records is handled without error:
    the watchdog clock is set first, then motor records 0, 1, 2 are given to
    the joints f1, f2, f3 and record 3 to the preshape joint, then finger
    records 0, 1, 2 to the fingers f1, f2, f3.  Each joint ends in the state
    its own record produces, so record 3 reaches the preshape joint only. *)
Theorem feedback_routing (w : World) (data : reflex_msgs.Hand)
    (a1 a2 a3 a4 : Motor) (g1 g2 g3 : Finger)
    (r0 r1 r2 r3 : reflex_msgs.Motor) (s0 s1 s2 : reflex_msgs.Finger) :
  reflex_msgs.motor data = [r0; r1; r2; r3] ->
  reflex_msgs.finger data = [s0; s1; s2] ->
  motors (hand w) !! (namespace (hand w) +:+ "_f1") = Some a1 ->
  motors (hand w) !! (namespace (hand w) +:+ "_f2") = Some a2 ->
  motors (hand w) !! (namespace (hand w) +:+ "_f3") = Some a3 ->
  motors (hand w) !! (namespace (hand w) +:+ "_preshape") = Some a4 ->
  fingers (hand w) !! (namespace (hand w) +:+ "_f1") = Some g1 ->
  fingers (hand w) !! (namespace (hand w) +:+ "_f2") = Some g2 ->
  fingers (hand w) !! (namespace (hand w) +:+ "_f3") = Some g3 ->
  outcome (_receive_hand_state_cb data) w = Ok tt /\
  latest_update (hand (exec (_receive_hand_state_cb data) w)) = clock w /\
  trace (exec (_receive_hand_state_cb data) w) =
    trace w ++
    [EvLatestUpdate (clock w);
     EvMotorState (namespace (hand w) +:+ "_f1") r0;
     EvMotorState (namespace (hand w) +:+ "_f2") r1;
     EvMotorState (namespace (hand w) +:+ "_f3") r2;
     EvMotorState (namespace (hand w) +:+ "_preshape") r3;
     EvFingerState (namespace (hand w) +:+ "_f1") s0;
     EvFingerState (namespace (hand w) +:+ "_f2") s1;
     EvFingerState (namespace (hand w) +:+ "_f3") s2] /\
  motors (hand (exec (_receive_hand_state_cb data) w))
    !! (namespace (hand w) +:+ "_f1") =
    Some (motor_receive_state_cb r0 (finger_of (hand w) a1) a1) /\
  motors (hand (exec (_receive_hand_state_cb data) w))
    !! (namespace (hand w) +:+ "_f2") =
    Some (motor_receive_state_cb r1 (finger_of (hand w) a2) a2) /\
  motors (hand (exec (_receive_hand_state_cb data) w))
    !! (namespace (hand w) +:+ "_f3") =
    Some (motor_receive_state_cb r2 (finger_of (hand w) a3) a3) /\
  motors (hand (exec (_receive_hand_state_cb data) w))
    !! (namespace (hand w) +:+ "_preshape") =
    Some (motor_receive_state_cb r3 (finger_of (hand w) a4) a4) /\
  (forall ID, ID ∉ joint_IDs (namespace (hand w)) ->
     motors (hand (exec (_receive_hand_state_cb data) w)) !! ID =
     motors (hand w) !! ID) /\
  fingers (hand (exec (_receive_hand_state_cb data) w)) =
    <[namespace (hand w) +:+ "_f3" := finger_receive_state_cb s2 g3]>
      (<[namespace (hand w) +:+ "_f2" := finger_receive_state_cb s1 g2]>
         (<[namespace (hand w) +:+ "_f1" := finger_receive_state_cb s0 g1]>
            (fingers (hand w)))).
Proof.
  destruct w as [[ns ms fs on q lu] t b tr], data as [rs ss]. simpl.
  intros -> -> A1 A2 A3 A4 G1 G2 G3. unfold exec, outcome.
  rewrite (hand_state_run ns ms fs on q lu t b tr
             a1 a2 a3 a4 g1 g2 g3 r0 r1 r2 r3 s0 s1 s2) by done.
  simpl. repeat split.
  - by rewrite !lookup_insert_ne, lookup_insert_eq by (by apply joint_ne).
  - by rewrite !lookup_insert_ne, lookup_insert_eq by (by apply joint_ne).
  - by rewrite !lookup_insert_ne, lookup_insert_eq by (by apply joint_ne).
  - by rewrite lookup_insert_eq.
  - intros ID HID. unfold joint_IDs in HID.
    rewrite !not_elem_of_cons in HID. destruct HID as (? & ? & ? & ? & _).
    by rewrite !lookup_insert_ne.
Qed.

(** C8, as the code has it.  On a hand that has its four joints and three
    fingers, a batch with fewer than four motor records, or with four and
    fewer than three finger records, makes the handler raise an index error
    at the first missing record.  By then the watchdog clock has been set and
    every record in front of the missing one has been given to its joint or
    finger; nothing is undone.  Each joint whose record is in the batch is in
    the state its callback produced, and so is each finger whose record is
    in a batch with its four motor records; a joint or finger whose record
    is missing is as it was, and no finger is touched when a motor record is
    missing. *)
Theorem short_feedback_partial (w : World) (data : reflex_msgs.Hand) :
  hand_complete (hand w) ->
  (length (reflex_msgs.motor data) < 4 \/
   length (reflex_msgs.finger data) < 3)%nat ->
  outcome (_receive_hand_state_cb data) w =
    Raise (IndexError (missing_index data)) /\
  latest_update (hand (exec (_receive_hand_state_cb data) w)) = clock w /\
  trace (exec (_receive_hand_state_cb data) w) =
    trace w ++ EvLatestUpdate (clock w) :: routed (namespace (hand w)) data /\
  (forall i ID r a,
     joint_IDs (namespace (hand w)) !! i = Some ID ->
     reflex_msgs.motor data !! i = Some r ->
     motors (hand w) !! ID = Some a ->
     motors (hand (exec (_receive_hand_state_cb data) w)) !! ID =
       Some (motor_receive_state_cb r (finger_of (hand w) a) a)) /\
  (forall i ID,
     joint_IDs (namespace (hand w)) !! i = Some ID ->
     reflex_msgs.motor data !! i = None ->
     motors (hand (exec (_receive_hand_state_cb data) w)) !! ID =
       motors (hand w) !! ID) /\
  (forall i ID r f,
     finger_IDs (namespace (hand w)) !! i = Some ID ->
     (4 <= length (reflex_msgs.motor data))%nat ->
     reflex_msgs.finger data !! i = Some r ->
     fingers (hand w) !! ID = Some f ->
     fingers (hand (exec (_receive_hand_state_cb data) w)) !! ID =
       Some (finger_receive_state_cb r f)) /\
  ((length (reflex_msgs.motor data) < 4)%nat ->
     fingers (hand (exec (_receive_hand_state_cb data) w)) = fingers (hand w)) /\
  (forall i ID,
     finger_IDs (namespace (hand w)) !! i = Some ID ->
     reflex_msgs.finger data !! i = None ->
     fingers (hand (exec (_receive_hand_state_cb data) w)) !! ID =
       fingers (hand w) !! ID).
Proof.
  intros Hw Hshort.
  destruct (hand_state_events data w Hw)
    as (Hout & Hlu & Htr & Hms & Hms' & Hfs & Hfs' & Hfs'').
  rewrite decide_False in Hout by lia. done.
Qed.

(** *** Interlock sequencing *)

(** C3.  A combined, angle or velocity command always returns.  When the
    interlock flag is set on arrival, the events of the handler are, in this
    order: entry, settle delay and return of [disable_tactile_stops], the
    setter calls of the command, then entry, delay and return of
    [enable_tactile_stops]; the setters run on the motors as the disable left
    them and the enable runs on their result.  When the flag is clear on
    arrival, the events are the setter calls alone, none of which is a
    toggle. *)
Theorem interlock_sequencing (c : InboundCommand) (w : World) :
  outcome (handle c) w = Ok tt /\
  (interlock w = true ->
     trace (exec (handle c) w) =
       trace w ++ disable_events ++ mutation_events c ++ enable_events /\
     motors (hand (exec (handle c) w)) =
       motor_enable_tactile_stops <$>
         mutate c (motor_disable_tactile_stops <$> motors (hand w))) /\
  (interlock w = false ->
     trace (exec (handle c) w) = trace w ++ mutation_events c /\
     Forall (fun e => is_toggle e = false) (mutation_events c) /\
     motors (hand (exec (handle c) w)) = mutate c (motors (hand w))).
Proof.
  destruct (handle_run c w) as (Hok & _ & Htr & Hms).
  split; [done|]. split; intros Hon; rewrite Hon in Htr, Hms.
  - done.
  - repeat split; [done | | done].
    destruct c; repeat constructor.
Qed.

(** *** Force override *)

(** C6.  A force command returns with the interlock flag false whatever it
    was before, its events being one disable followed by the speed reset and
    the force setter, with no enable.  The flag is still false after any
    further sequence of commands, feedback messages, disable calls and
    arbitration passes that contains no call of the enable service, and it
    is true after a call of that service. *)
Theorem force_override (data : reflex_msgs.ForceCommand) (w : World)
    (cs : list Call) :
  Forall (fun c => c <> CallEnableTactileStops) cs ->
  outcome (_receive_force_cmd_cb data) w = Ok tt /\
  interlock (exec (_receive_force_cmd_cb data) w) = false /\
  trace (exec (_receive_force_cmd_cb data) w) =
    trace w ++ disable_events ++ [EvResetSpeeds; EvSetForceCmds data] /\
  interlock (serve cs (exec (_receive_force_cmd_cb data) w)) = false /\
  interlock (serve (cs ++ [CallEnableTactileStops])
                   (exec (_receive_force_cmd_cb data) w)) = true.
Proof.
  intros Hcs. destruct (force_run data w) as (Hok & Hoff & Htr & _).
  repeat split; try done.
  - by apply serve_keeps_disabled.
  - generalize (exec (_receive_force_cmd_cb data) w). clear.
    induction cs as [|c cs IH]; intros w; simpl; [by destruct w | apply IH].
Qed.

(** *** Construction *)

(** C9.  The constructor returns, and the hand it builds has the interlock
    flag false, whatever the object held before and whatever the base
    constructor left there.  From then on, as long as the enable service has
    not been called, a combined, angle or velocity command is applied bare:
    its events are its setter calls, with no disable before and no enable
    after. *)
Theorem interlock_starts_disabled (w : World) (cs : list Call)
    (c : InboundCommand) :
  Forall (fun c => c <> CallEnableTactileStops) cs ->
  outcome __init__ w = Ok tt /\
  interlock (exec __init__ w) = false /\
  trace (exec (handle c) (serve cs (exec __init__ w))) =
    trace (serve cs (exec __init__ w)) ++ mutation_events c /\
  motors (hand (exec (handle c) (serve cs (exec __init__ w)))) =
    mutate c (motors (hand (serve cs (exec __init__ w)))).
Proof.
  intros Hcs. destruct (init_run w) as (Hok & Hoff & _).
  pose proof (serve_keeps_disabled cs _ Hcs Hoff) as Hoff'.
  destruct (handle_run c (serve cs (exec __init__ w))) as (_ & _ & Htr & Hms).
  rewrite Hoff' in Htr, Hms.
  split; [exact Hok|]. split; [exact Hoff|]. split; [exact Htr | exact Hms].
Qed.

(** *** The order of the setter calls *)

(** X20.  The order of the setter calls.  The angle handler calls
    [reset_speeds] and then [set_angles]; the force handler calls
    [reset_speeds] and then [set_force_cmds]; in both the new setpoints are
    written on the motors as [reset_speeds] left them.  The combined handler
    calls [set_speeds] with the velocities of the command and then
    [set_angles]; it never calls [reset_speeds].  What [reset_speeds]
    writes belongs to the base class and is not part of the statement. *)
Theorem reset_speeds_call_order (w : World) :
  (forall data : reflex_msgs.PoseCommand,
     trace (exec (_receive_angle_cmd_cb data) w) =
       trace w ++
       (if interlock w
        then disable_events ++ [EvResetSpeeds; EvSetAngles data] ++ enable_events
        else [EvResetSpeeds; EvSetAngles data]) /\
     motors (hand (exec (_receive_angle_cmd_cb data) w)) =
       (if interlock w
        then motor_enable_tactile_stops <$>
               base_set_angles data
                 (base_reset_speeds
                    (motor_disable_tactile_stops <$> motors (hand w)))
        else base_set_angles data (base_reset_speeds (motors (hand w))))) /\
  (forall data : reflex_msgs.ForceCommand,
     trace (exec (_receive_force_cmd_cb data) w) =
       trace w ++ disable_events ++ [EvResetSpeeds; EvSetForceCmds data] /\
     motors (hand (exec (_receive_force_cmd_cb data) w)) =
       base_set_force_cmds data
         (base_reset_speeds
            (motor_disable_tactile_stops <$> motors (hand w)))) /\
  (forall data : reflex_msgs.Command,
     exists evs,
       trace (exec (_receive_cmd_cb data) w) = trace w ++ evs /\
       (EvResetSpeeds ∉ evs) /\
       ([EvSetSpeeds (reflex_msgs.velocity data);
         EvSetAngles (reflex_msgs.pose data)] `sublist_of` evs) /\
       motors (hand (exec (_receive_cmd_cb data) w)) =
         (if interlock w
          then motor_enable_tactile_stops <$>
                 base_set_angles (reflex_msgs.pose data)
                   (base_set_speeds (reflex_msgs.velocity data)
                      (motor_disable_tactile_stops <$> motors (hand w)))
          else base_set_angles (reflex_msgs.pose data)
                 (base_set_speeds (reflex_msgs.velocity data)
                    (motors (hand w))))).
Proof.
  split; [|split]; intros data.
  - destruct (handle_run (AngleCommand data) w) as (_ & _ & Htr & Hms). done.
  - destruct (force_run data w) as (_ & _ & Htr & Hms). done.
  - destruct (handle_run (CombinedCommand data) w) as (_ & _ & Htr & Hms).
    eexists. split; [exact Htr|]. split; [|split; [|exact Hms]].
    + destruct (interlock w); simpl; intros Hin;
        repeat (apply elem_of_cons in Hin as [Hin|Hin]; [discriminate|]);
        by apply elem_of_nil in Hin.
    + destruct (interlock w); simpl;
        repeat first [ apply sublist_skip | apply sublist_cons | apply sublist_nil ].
Qed.

End Properties.

(** ** Watchdog *)

(** With the timeout of the constructor, the test of the control loop
    compares whole seconds. *)
Lemma comms_timed_out_secs (now : Time) (h : Hand) :
  comms_timeout h = 5%Q ->
  comms_timed_out now h = true <-> secs (latest_update h) + 5 < secs now.
Proof.
  intros Hq. unfold comms_timed_out. rewrite Hq, negb_true_iff.
  rewrite <- not_true_iff_false, Qle_bool_iff.
  unfold Qle, Qplus, inject_Z. simpl. lia.
Qed.

Lemma secs_time_add (t : Time) (s ns : Z) :
  time_wf t -> 0 <= ns < NSECS_PER_SEC ->
  secs (time_add t (seconds s + ns)) =
    secs t + s + (if decide (NSECS_PER_SEC <= nsecs t + ns) then 1 else 0).
Proof.
  unfold time_wf, time_add, seconds, NSECS_PER_SEC. simpl. intros Ht Hns.
  replace (nsecs t + (s * 1000000000 + ns))
    with ((nsecs t + ns) + s * 1000000000) by lia.
  rewrite Z.div_add by lia.
  case_decide.
  - replace ((nsecs t + ns) / 1000000000) with 1; [lia|].
    apply (Z.div_unique _ _ _ (nsecs t + ns - 1000000000)); lia.
  - rewrite Z.div_small by lia. lia.
Qed.

(** C4, as the code has it.  With the last feedback at [T] and the timeout
    of five seconds, the test finds no fault at [T + 5.0 s].  At
    [T + 5.01 s] it finds a fault exactly when the nanosecond part of [T] is
    at least 990,000,000, that is when the added hundredth carries into the
    seconds field.  The test reads whole seconds only: at any instant [now]
    it finds a fault exactly when [now.secs > T.secs + 5], and it finds one
    at [T + 6 s] and at every later instant. *)
Theorem watchdog_boundary (h : Hand) (T : Time) :
  time_wf T ->
  latest_update h = T ->
  comms_timeout h = 5%Q ->
  comms_timed_out (time_add T (seconds 5)) h = false /\
  (comms_timed_out (time_add T (seconds 5 + millis 10)) h = true <->
   990000000 <= nsecs T) /\
  comms_timed_out (time_add T (seconds 6)) h = true /\
  (forall now : Time,
     comms_timed_out now h = true <-> secs T + 5 < secs now) /\
  (forall d : Z,
     seconds 6 <= d -> comms_timed_out (time_add T d) h = true).
Proof.
  intros HT Hlu Hq. split; [|split; [|split; [|split]]].
  - apply not_true_iff_false. rewrite comms_timed_out_secs by done.
    replace (seconds 5) with (seconds 5 + 0) by lia.
    rewrite secs_time_add by (unfold NSECS_PER_SEC; done || lia).
    rewrite Hlu. case_decide; unfold time_wf in *; lia.
  - rewrite comms_timed_out_secs by done.
    rewrite secs_time_add by (unfold millis, NSECS_PER_SEC; done || lia).
    rewrite Hlu. unfold millis, NSECS_PER_SEC. case_decide; lia.
  - rewrite comms_timed_out_secs by done.
    replace (seconds 6) with (seconds 6 + 0) by lia.
    rewrite secs_time_add by (unfold NSECS_PER_SEC; done || lia).
    rewrite Hlu. case_decide; lia.
  - intros now. rewrite comms_timed_out_secs by done. by rewrite Hlu.
  - intros d Hd. rewrite comms_timed_out_secs by done. rewrite Hlu.
    unfold time_add, time_wf, seconds, NSECS_PER_SEC in *. simpl.
    assert (6 <= (nsecs T + d) / 1000000000)
      by (apply Z.div_le_lower_bound; lia).
    lia.
Qed.

(** ** Further properties *)

Lemma any_motor_false (flag : Motor -> bool) (ms : gmap string Motor) :
  any_motor flag ms = false <->
  forall ID m, ms !! ID = Some m -> flag m = false.
Proof.
  rewrite <- not_true_iff_false, any_motor_true. split.
  - intros Hno ID m Hm. apply not_true_iff_false. intros Hf. apply Hno. eauto.
  - intros Hall (ID & m & Hm & Hf). rewrite (Hall ID m Hm) in Hf. done.
Qed.

Lemma any_motor_fmap (flag flag' : Motor -> bool) (g : Motor -> Motor)
    (ms : gmap string Motor) :
  (forall m, flag (g m) = flag' m) ->
  any_motor flag (g <$> ms) = any_motor flag' ms.
Proof.
  intros Hg. apply Bool.eq_true_iff_eq. rewrite !any_motor_true. split.
  - intros (ID & m & Hm & Hf). rewrite lookup_fmap in Hm.
    apply fmap_Some in Hm as (m0 & Hm0 & ->). exists ID, m0. by rewrite <- Hg.
  - intros (ID & m & Hm & Hf). exists ID, (g m).
    rewrite lookup_fmap, Hm, Hg. done.
Qed.

Lemma any_motor_never (ms : gmap string Motor) :
  any_motor (fun _ => false) ms = false.
Proof. by apply any_motor_false. Qed.

(** A frame tactic for any observation: binds are split, and a primitive
    either has a lemma in the database or leaves the observation alone by
    computation. *)
Create HintDb frame.

Ltac open_methods :=
  unfold dispatch, handle, _receive_cmd_cb, _receive_angle_cmd_cb,
    _receive_vel_cmd_cb, _receive_force_cmd_cb, _receive_hand_state_cb,
    _publish_motor_commands, _publish_speed_commands,
    _publish_position_commands, _publish_torque_commands,
    disable_tactile_stops, enable_tactile_stops, set_speeds, set_angles,
    set_velocities, set_force_cmds, reset_speeds.

Ltac frame :=
  repeat first
    [ solve [ auto with frame ]
    | apply preserves_bind; [ | intros ? ]
    | apply preserves_ret
    | apply preserves_raise
    | apply preserves_when
    | apply preserves_dict_get
    | apply preserves_list_get
    | solve [ intros ?; reflexivity ]
    | case_match ].

Lemma serve_preserves `{MotorClass} `{FingerClass} `{ReflexHand} `{DictOrder}
    {X} (obs : World -> X) (P : Call -> Prop) (cs : list Call) (w : World) :
  (forall c, P c -> preserves obs (dispatch c)) ->
  Forall P cs -> obs (serve cs w) = obs w.
Proof.
  intros Hstep Hcs. revert w.
  induction Hcs as [|c cs Hc _ IH]; intros w; simpl; [done|].
  rewrite IH. apply (Hstep c Hc).
Qed.

Lemma shutdown_signals_snoc (t : list Event) (e : Event) :
  shutdown_signals (t ++ [e]) =
  (shutdown_signals t + (if is_shutdown_signal e then 1 else 0))%nat.
Proof.
  unfold shutdown_signals. rewrite filter_app, length_app.
  destruct (is_shutdown_signal e) eqn:E.
  - rewrite (filter_cons_True _ e []) by done. done.
  - rewrite (filter_cons_False _ e []) by (by rewrite E). done.
Qed.

Lemma shutdown_signals_fault (t : list Event) (q : Q) :
  shutdown_signals
    (t ++ [EvLogFatal q; EvSignalShutdown "Comms timeout"; EvSleep RATE_PERIOD]) =
  S (shutdown_signals t).
Proof.
  unfold shutdown_signals. rewrite filter_app, length_app.
  change (length (filter _ [EvLogFatal q; _; _])) with 1%nat. lia.
Qed.

Lemma loop_state_log (e : Event) :
  is_shutdown_signal e = false -> preserves loop_state (log e).
Proof.
  intros He w. unfold loop_state. simpl.
  rewrite shutdown_signals_snoc, He. f_equal. lia.
Qed.

Lemma loop_state_sleep (d : Z) : preserves loop_state (sleep d).
Proof.
  intros w. unfold loop_state. simpl.
  rewrite shutdown_signals_snoc. simpl. f_equal. lia.
Qed.

#[local] Hint Resolve loop_state_sleep : frame.
#[local] Hint Extern 1 (preserves loop_state (log _)) =>
  (apply loop_state_log; reflexivity) : frame.

Lemma dom_motors_fmap (g : Motor -> Motor) :
  preserves (fun w => dom (motors (hand w))) (modify_motors (fmap g)).
Proof. intros w. simpl. apply dom_fmap_L. Qed.

#[local] Hint Resolve dom_motors_fmap : frame.

Lemma time_add_add (t : Time) (a b : Z) :
  time_add (time_add t a) b = time_add t (a + b).
Proof.
  unfold time_add, NSECS_PER_SEC. simpl.
  pose proof (Z.div_mod (nsecs t + a) 1000000000 ltac:(lia)) as Hx.
  replace (nsecs t + (a + b))
    with (((nsecs t + a) mod 1000000000 + b) +
          ((nsecs t + a) / 1000000000) * 1000000000) by lia.
  rewrite Z.div_add, Z.mod_add by lia. f_equal. lia.
Qed.

Section FurtherProperties.

Context {MC : MotorClass} {FC : FingerClass} {RH : ReflexHand} {DO : DictOrder}.

(** *** The publishing methods *)

(** X19.  When the four joints are in the dictionary,
    [_publish_speed_commands] returns after one request to the set_speed
    service and nothing else: the request carries the commanded speeds of
    the four joints in the order f1, f2, f3, preshape, no position or torque
    command goes out with it, and no time passes.  Every speed flag is
    cleared and the motors are otherwise as before, so that the position
    and torque classes are pending exactly when they were. *)
Theorem speed_commands_publish (w : World) :
  joints_present (motors (hand w)) ->
  exists m1 m2 m3 m4,
    motors (hand w) !! "/reflex_takktile_f1" = Some m1 /\
    motors (hand w) !! "/reflex_takktile_f2" = Some m2 /\
    motors (hand w) !! "/reflex_takktile_f3" = Some m3 /\
    motors (hand w) !! "/reflex_takktile_preshape" = Some m4 /\
    _publish_speed_commands w =
      (Ok tt,
       mkWorld
         (with_motors (set_speed_update_occurred false <$> motors (hand w))
                      (hand w))
         (clock w) (is_shutdown w)
         (trace w ++
            [EvSetSpeedService
               [get_commanded_speed (set_speed_update_occurred false m1);
                get_commanded_speed (set_speed_update_occurred false m2);
                get_commanded_speed (set_speed_update_occurred false m3);
                get_commanded_speed (set_speed_update_occurred false m4)]])) /\
    any_motor speed_update_occurred
      (motors (hand (exec _publish_speed_commands w))) = false /\
    any_motor position_update_occurred
      (motors (hand (exec _publish_speed_commands w))) =
      any_motor position_update_occurred (motors (hand w)) /\
    any_motor torque_update_occurred
      (motors (hand (exec _publish_speed_commands w))) =
      any_motor torque_update_occurred (motors (hand w)).
Proof.
  destruct w as [h t b tr]. simpl.
  intros ([m1 H1] & [m2 H2] & [m3 H3] & [m4 H4]).
  exists m1, m2, m3, m4. do 4 (split; [assumption|]).
  unfold exec. rewrite (publish_speed_run h t b tr m1 m2 m3 m4 H1 H2 H3 H4).
  split; [reflexivity|]. simpl.
  split; [|split; by apply any_motor_fmap].
  rewrite (any_motor_fmap _ (fun _ => false)) by reflexivity.
  apply any_motor_never.
Qed.

(** X1.  When the four joints are in the dictionary,
    [_publish_position_commands] returns after one message on the position
    topic, carrying the commanded positions of the four joints in the order
    f1, f2, f3, preshape, followed by a sleep of 10 ms.  Every position flag
    is cleared and the motors are otherwise as before, so that the speed
    and torque classes are pending exactly when they were. *)
Theorem position_commands_publish (w : World) :
  joints_present (motors (hand w)) ->
  exists m1 m2 m3 m4,
    motors (hand w) !! "/reflex_takktile_f1" = Some m1 /\
    motors (hand w) !! "/reflex_takktile_f2" = Some m2 /\
    motors (hand w) !! "/reflex_takktile_f3" = Some m3 /\
    motors (hand w) !! "/reflex_takktile_preshape" = Some m4 /\
    _publish_position_commands w =
      (Ok tt,
       mkWorld
         (with_motors (set_position_update_occurred false <$> motors (hand w))
                      (hand w))
         (time_add (clock w) (millis 10)) (is_shutdown w)
         (trace w ++
            [EvMotorCmdPub
               [get_commanded_position (set_position_update_occurred false m1);
                get_commanded_position (set_position_update_occurred false m2);
                get_commanded_position (set_position_update_occurred false m3);
                get_commanded_position (set_position_update_occurred false m4)];
             EvSleep (millis 10)])) /\
    any_motor position_update_occurred
      (motors (hand (exec _publish_position_commands w))) = false /\
    any_motor speed_update_occurred
      (motors (hand (exec _publish_position_commands w))) =
      any_motor speed_update_occurred (motors (hand w)) /\
    any_motor torque_update_occurred
      (motors (hand (exec _publish_position_commands w))) =
      any_motor torque_update_occurred (motors (hand w)).
Proof.
  destruct w as [h t b tr]. simpl.
  intros ([m1 H1] & [m2 H2] & [m3 H3] & [m4 H4]).
  exists m1, m2, m3, m4. do 4 (split; [assumption|]).
  unfold exec. rewrite (publish_position_run h t b tr m1 m2 m3 m4 H1 H2 H3 H4).
  split; [reflexivity|]. simpl.
  split; [|split; by apply any_motor_fmap].
  rewrite (any_motor_fmap _ (fun _ => false)) by reflexivity.
  apply any_motor_never.
Qed.

(** X2.  When the four joints are in the dictionary,
    [_publish_torque_commands] returns after one message on the torque
    topic, carrying the commanded torques of the four joints in the order
    f1, f2, f3, preshape, followed by a sleep of 10 ms.  Every torque flag
    is cleared and the motors are otherwise as before, so that the speed
    and position classes are pending exactly when they were. *)
Theorem torque_commands_publish (w : World) :
  joints_present (motors (hand w)) ->
  exists m1 m2 m3 m4,
    motors (hand w) !! "/reflex_takktile_f1" = Some m1 /\
    motors (hand w) !! "/reflex_takktile_f2" = Some m2 /\
    motors (hand w) !! "/reflex_takktile_f3" = Some m3 /\
    motors (hand w) !! "/reflex_takktile_preshape" = Some m4 /\
    _publish_torque_commands w =
      (Ok tt,
       mkWorld
         (with_motors (set_torque_update_occurred false <$> motors (hand w))
                      (hand w))
         (time_add (clock w) (millis 10)) (is_shutdown w)
         (trace w ++
            [EvMotorTorquePub
               [get_commanded_torque (set_torque_update_occurred false m1);
                get_commanded_torque (set_torque_update_occurred false m2);
                get_commanded_torque (set_torque_update_occurred false m3);
                get_commanded_torque (set_torque_update_occurred false m4)];
             EvSleep (millis 10)])) /\
    any_motor torque_update_occurred
      (motors (hand (exec _publish_torque_commands w))) = false /\
    any_motor speed_update_occurred
      (motors (hand (exec _publish_torque_commands w))) =
      any_motor speed_update_occurred (motors (hand w)) /\
    any_motor position_update_occurred
      (motors (hand (exec _publish_torque_commands w))) =
      any_motor position_update_occurred (motors (hand w)).
Proof.
  destruct w as [h t b tr]. simpl.
  intros ([m1 H1] & [m2 H2] & [m3 H3] & [m4 H4]).
  exists m1, m2, m3, m4. do 4 (split; [assumption|]).
  unfold exec. rewrite (publish_torque_run h t b tr m1 m2 m3 m4 H1 H2 H3 H4).
  split; [reflexivity|]. simpl.
  split; [|split; by apply any_motor_fmap].
  rewrite (any_motor_fmap _ (fun _ => false)) by reflexivity.
  apply any_motor_never.
Qed.


(** *** Construction: connecting the motors to the fingers *)

(** X5.  When every motor other than the preshape one has a finger under its own
    key, [_connect_motors_to_fingers] returns and changes nothing but the
    [finger] attribute of the motors: each motor other than the preshape one
    refers to the finger under its own key, and the preshape motor is left as
    it was. *)
Theorem connect_motors_ok (w : World) :
  (forall ID m, motors (hand w) !! ID = Some m ->
                ID <> namespace (hand w) +:+ "_preshape" ->
                is_Some (fingers (hand w) !! ID)) ->
  exists ms',
    _connect_motors_to_fingers w =
      (Ok tt, mkWorld (with_motors ms' (hand w)) (clock w) (is_shutdown w)
                      (trace w)) /\
    forall k,
      ms' !! k =
      if bool_decide (k <> namespace (hand w) +:+ "_preshape")
      then set_finger (Some k) <$> motors (hand w) !! k
      else motors (hand w) !! k.
Proof.
  intros Hfs. exists (connect_all (namespace (hand w)) (motors (hand w))).
  split; [by apply connect_run|].
  intros k. unfold connect_all. rewrite map_lookup_imap.
  destruct (motors (hand w) !! k) as [m|]; simpl; by case_bool_decide.
Qed.

(** X6.  When some motor other than the preshape one has no finger under its
    key, [_connect_motors_to_fingers] raises a key error for such a motor;
    the fingers, the interlock flag and the trace are as before. *)
Theorem connect_motors_missing_finger (w : World) (ID : string) (m : Motor) :
  motors (hand w) !! ID = Some m ->
  ID <> namespace (hand w) +:+ "_preshape" ->
  fingers (hand w) !! ID = None ->
  exists ID',
    outcome _connect_motors_to_fingers w = Raise (KeyError ID') /\
    is_Some (motors (hand w) !! ID') /\
    ID' <> namespace (hand w) +:+ "_preshape" /\
    fingers (hand w) !! ID' = None /\
    fingers (hand (exec _connect_motors_to_fingers w)) = fingers (hand w) /\
    interlock (exec _connect_motors_to_fingers w) = interlock w /\
    trace (exec _connect_motors_to_fingers w) = trace w.
Proof.
  destruct w as [[ns ms fs on q lu] t b tr]. simpl. intros Hm Hne Hf.
  destruct (connect_loop_raise ns fs on q lu t b tr (dict_items ms) ms)
    as (ID' & ms' & Hin & Hne' & Hf' & Hrun).
  { apply Exists_exists. exists (ID, m). split; [|done].
    by apply elem_of_dict_items. }
  exists ID'. unfold exec, outcome, interlock, _connect_motors_to_fingers.
  erewrite bind_ok by reflexivity. simpl. rewrite Hrun. simpl.
  repeat split; try done.
  apply list_elem_of_fmap in Hin as ([k m'] & -> & Hin).
  apply elem_of_dict_items in Hin. by exists m'.
Qed.

(** X7.  The hand the constructor builds, whatever the motor and finger classes:
    its motors are the four joints, each of the three gripping motors refers
    to the finger stored under its own key, the hand leaves the preshape
    motor as the motor class made it, the timeout is five seconds and the
    watchdog clock is the time of construction. *)
Theorem constructed_hand (w : World) :
  namespace (hand (exec __init__ w)) = "/reflex_takktile" /\
  motors (hand (exec __init__ w)) =
    <["/reflex_takktile_f1" :=
        set_finger (Some "/reflex_takktile_f1") (new_motor "/reflex_takktile_f1")]>
    (<["/reflex_takktile_f2" :=
         set_finger (Some "/reflex_takktile_f2") (new_motor "/reflex_takktile_f2")]>
     (<["/reflex_takktile_f3" :=
          set_finger (Some "/reflex_takktile_f3") (new_motor "/reflex_takktile_f3")]>
      (<["/reflex_takktile_preshape" := new_motor "/reflex_takktile_preshape"]> ∅))) /\
  (forall ID m,
     motors (hand (exec __init__ w)) !! ID = Some m ->
     ID <> "/reflex_takktile_preshape" ->
     finger m = Some ID /\
     fingers (hand (exec __init__ w)) !! ID = Some new_finger) /\
  comms_timeout (hand (exec __init__ w)) = 5%Q /\
  latest_update (hand (exec __init__ w)) = clock w /\
  clock (exec __init__ w) = clock w /\
  trace (exec __init__ w) = trace w.
Proof.
  destruct w as [h t b tr]. unfold exec. rewrite init_full.
  cbn [snd hand motors namespace fingers comms_timeout latest_update clock
       trace].
  assert (connect_all "/reflex_takktile"
            (motors (ReflexHand_init "/reflex_takktile" h)) =
    <["/reflex_takktile_f1" :=
        set_finger (Some "/reflex_takktile_f1") (new_motor "/reflex_takktile_f1")]>
    (<["/reflex_takktile_f2" :=
         set_finger (Some "/reflex_takktile_f2") (new_motor "/reflex_takktile_f2")]>
     (<["/reflex_takktile_f3" :=
          set_finger (Some "/reflex_takktile_f3") (new_motor "/reflex_takktile_f3")]>
      (<["/reflex_takktile_preshape" := new_motor "/reflex_takktile_preshape"]> ∅))))
    as Hms by (vm_compute; reflexivity).
  split; [vm_compute; reflexivity|]. split; [exact Hms|].
  split; [|repeat split; vm_compute; reflexivity].
  intros ID m. rewrite Hms. intros Hm Hne.
  destruct (decide (ID = "/reflex_takktile_f1")) as [->|N1];
    [rewrite lookup_insert_eq in Hm; injection Hm as <-;
     split; [reflexivity | vm_compute; reflexivity]|].
  rewrite lookup_insert_ne in Hm by done.
  destruct (decide (ID = "/reflex_takktile_f2")) as [->|N2];
    [rewrite lookup_insert_eq in Hm; injection Hm as <-;
     split; [reflexivity | vm_compute; reflexivity]|].
  rewrite lookup_insert_ne in Hm by done.
  destruct (decide (ID = "/reflex_takktile_f3")) as [->|N3];
    [rewrite lookup_insert_eq in Hm; injection Hm as <-;
     split; [reflexivity | vm_compute; reflexivity]|].
  rewrite lookup_insert_ne in Hm by done.
  rewrite lookup_insert_ne in Hm by done. by rewrite lookup_empty in Hm.
Qed.

(** *** What the calls leave alone *)

Lemma dom_motors_motor_state_cb ID data i :
  preserves (fun w => dom (motors (hand w))) (motor_state_cb ID data i).
Proof.
  intros [h t b tr].
  unfold motor_state_cb, get_hand, dict_get, list_get, log, modify_motors,
    modify_hand, raise, mbind, M_bind, mret, M_ret. cbn.
  destruct (motors h !! ID) as [m|] eqn:Hm; [|done].
  destruct (data !! i); [|done]. cbn.
  apply dom_insert_lookup_L. by rewrite Hm.
Qed.

Lemma dom_fingers_finger_state_cb ID data i :
  preserves (fun w => dom (fingers (hand w))) (finger_state_cb ID data i).
Proof.
  intros [h t b tr].
  unfold finger_state_cb, get_hand, dict_get, list_get, log, modify_hand,
    raise, mbind, M_bind, mret, M_ret. cbn.
  destruct (fingers h !! ID) as [f|] eqn:Hf; [|done].
  destruct (data !! i); [|done]. cbn.
  apply dom_insert_lookup_L. by rewrite Hf.
Qed.

Lemma dispatch_configuration (c : Call) :
  preserves (fun w => (namespace (hand w), comms_timeout (hand w),
                       is_shutdown w)) (dispatch c).
Proof.
  destruct c as [[d|d|d]|d|d| | |]; open_methods;
    unfold motor_state_cb, finger_state_cb; frame.
Qed.

Lemma dispatch_dom_fingers (c : Call) :
  preserves (fun w => dom (fingers (hand w))) (dispatch c).
Proof.
  pose proof dom_fingers_finger_state_cb.
  destruct c as [[d|d|d]|d|d| | |]; open_methods;
    unfold motor_state_cb; frame.
Qed.

Lemma dispatch_dom_motors (c : Call) :
  calls_setter c = false ->
  preserves (fun w => dom (motors (hand w))) (dispatch c).
Proof.
  pose proof dom_motors_motor_state_cb.
  destruct c as [[d|d|d]|d|d| | |]; intros Hc; try discriminate;
    open_methods; unfold finger_state_cb; frame.
Qed.

Lemma dispatch_feedback_state (c : Call) :
  is_feedback c = false ->
  preserves (fun w => (latest_update (hand w), fingers (hand w))) (dispatch c).
Proof.
  destruct c as [[d|d|d]|d|d| | |]; intros Hc; try discriminate;
    open_methods; frame.
Qed.

Lemma dispatch_interlock (c : Call) :
  toggles_interlock c = false -> preserves interlock (dispatch c).
Proof.
  destruct c as [c|d|d| | |]; intros Hc; try discriminate; intros w; simpl.
  - by destruct (handle_run c w) as (_ & Hi & _).
  - apply interlock_receive_hand_state_cb.
  - apply interlock_publish_motor_commands.
Qed.

(** X8.  No sequence of calls changes the namespace, the timeout or the shutdown
    flag of the hand, nor the set of keys of its finger dictionary: the
    feedback handler overwrites fingers that exist and never adds one. *)
Theorem calls_keep_configuration (cs : list Call) (w : World) :
  namespace (hand (serve cs w)) = namespace (hand w) /\
  comms_timeout (hand (serve cs w)) = comms_timeout (hand w) /\
  is_shutdown (serve cs w) = is_shutdown w /\
  dom (fingers (hand (serve cs w))) = dom (fingers (hand w)).
Proof.
  pose proof (serve_preserves
                (fun w => (namespace (hand w), comms_timeout (hand w),
                           is_shutdown w))
                (fun _ => True) cs w
                (fun c _ => dispatch_configuration c)) as Hcfg.
  pose proof (serve_preserves (fun w => dom (fingers (hand w)))
                (fun _ => True) cs w
                (fun c _ => dispatch_dom_fingers c)) as Hdom.
  simpl in Hcfg.
  assert (Forall (fun _ : Call => True) cs) as Hall by (by apply Forall_forall).
  specialize (Hcfg Hall). specialize (Hdom Hall).
  injection Hcfg as Hns Hq Hsd. done.
Qed.

(** X9.  The watchdog clock and the fingers are written by the feedback handler
    only: a sequence of calls without a feedback message leaves both as they
    were. *)
Theorem only_feedback_writes_watchdog (cs : list Call) (w : World) :
  Forall (fun c => is_feedback c = false) cs ->
  latest_update (hand (serve cs w)) = latest_update (hand w) /\
  fingers (hand (serve cs w)) = fingers (hand w).
Proof.
  intros Hcs.
  pose proof (serve_preserves
                (fun w => (latest_update (hand w), fingers (hand w)))
                _ cs w dispatch_feedback_state Hcs) as Hfb.
  simpl in Hfb. by injection Hfb as Hlu Hfs.
Qed.

(** X10.  The interlock flag is written by the two services and by the force
    handler only: a sequence of combined, angle and velocity commands,
    feedback messages and arbitration passes ends with the flag it started
    with. *)
Theorem only_toggles_write_interlock (cs : list Call) (w : World) :
  Forall (fun c => toggles_interlock c = false) cs ->
  interlock (serve cs w) = interlock w.
Proof.
  intros Hcs. apply (serve_preserves interlock _ cs w dispatch_interlock Hcs).
Qed.

(** X11.  Feedback, the interlock services and the arbitration never add or
    remove a motor: after any sequence of them the motor dictionary has the
    keys it had, so a hand that had its four joints and three fingers still
    has them. *)
Theorem joints_are_kept (cs : list Call) (w : World) :
  Forall (fun c => calls_setter c = false) cs ->
  dom (motors (hand (serve cs w))) = dom (motors (hand w)) /\
  (joints_present (motors (hand w)) ->
   joints_present (motors (hand (serve cs w)))) /\
  (hand_complete (hand w) -> hand_complete (hand (serve cs w))).
Proof.
  intros Hcs.
  pose proof (serve_preserves (fun w => dom (motors (hand w)))
                _ cs w dispatch_dom_motors Hcs) as Hdom.
  simpl in Hdom.
  pose proof (serve_preserves
                (fun w => (namespace (hand w), comms_timeout (hand w),
                           is_shutdown w))
                (fun _ => True) cs w
                (fun c _ => dispatch_configuration c)) as Hcfg.
  pose proof (serve_preserves (fun w => dom (fingers (hand w)))
                (fun _ => True) cs w
                (fun c _ => dispatch_dom_fingers c)) as Hfs.
  assert (Forall (fun _ : Call => True) cs) as Hall by (by apply Forall_forall).
  specialize (Hcfg Hall). specialize (Hfs Hall). simpl in Hcfg, Hfs.
  injection Hcfg as Hns _ _.
  split; [done|]. split.
  - unfold joints_present. rewrite <- !elem_of_dom, Hdom. done.
  - unfold hand_complete. rewrite Hns.
    intros [Hm Hf]. split.
    + eapply Forall_impl; [exact Hm|]. intros k. simpl.
      by rewrite <- !elem_of_dom, Hdom.
    + eapply Forall_impl; [exact Hf|]. intros k. simpl.
      by rewrite <- !elem_of_dom, Hfs.
Qed.

(** *** Feedback: the watchdog clock, long batches, missing joints *)

Lemma hand_state_touch (data : reflex_msgs.Hand) (w : World) :
  latest_update (hand (exec (_receive_hand_state_cb data) w)) = clock w /\
  clock (exec (_receive_hand_state_cb data) w) = clock w /\
  comms_timeout (hand (exec (_receive_hand_state_cb data) w)) =
    comms_timeout (hand w).
Proof.
  assert (forall c : M unit,
            preserves (fun w => (latest_update (hand w), clock w,
                                 comms_timeout (hand w))) c ->
            forall now,
              let w1 := exec (modify_hand (with_latest_update now)) w in
              (latest_update (hand (c w1).2), clock (c w1).2,
               comms_timeout (hand (c w1).2)) =
              (now, clock w, comms_timeout (hand w))) as Hrest.
  { intros c Hc now w1. rewrite (Hc w1). done. }
  unfold exec, _receive_hand_state_cb.
  match goal with
  | |- context [(get_rostime ≫= ?k) w] =>
      change ((get_rostime ≫= k) w) with (k (clock w) w)
  end.
  cbv beta.
  match goal with
  | |- context [(modify_hand ?g ≫= ?k) w] =>
      change ((modify_hand g ≫= k) w)
        with (k tt (exec (modify_hand g) w))
  end.
  cbv beta.
  match goal with
  | |- context [(?c (exec (modify_hand (with_latest_update (clock w))) w)).2] =>
      specialize (Hrest c)
  end.
  injection (Hrest ltac:(unfold motor_state_cb, finger_state_cb; frame) (clock w))
    as Hlu Hck Hq.
  done.
Qed.

(** X12.  Every feedback message resets the watchdog, whatever its shape and
    whatever the hand holds: when the handler is left, by return or by an
    error, the watchdog clock is the current time and the test of the
    control loop finds no fault at that instant. *)
Theorem feedback_resets_watchdog (data : reflex_msgs.Hand) (w : World) :
  (0 <= comms_timeout (hand w))%Q ->
  latest_update (hand (exec (_receive_hand_state_cb data) w)) = clock w /\
  comms_timed_out (clock (exec (_receive_hand_state_cb data) w))
                  (hand (exec (_receive_hand_state_cb data) w)) = false.
Proof.
  intros Hq. destruct (hand_state_touch data w) as (Hlu & Hck & Hto).
  split; [done|]. unfold comms_timed_out. rewrite Hlu, Hck, Hto.
  apply negb_false_iff, Qle_bool_iff.
  destruct (comms_timeout (hand w)) as [n d].
  unfold Qle, Qplus, inject_Z in *. simpl in *. nia.
Qed.

(** X13.  Records beyond the fourth motor record and the third finger record are
    never read: a batch with at least four motor records and three finger
    records is handled exactly as its first four and first three, and on a
    hand that has its joints and fingers it is accepted without error. *)
Theorem long_batch_truncated (data : reflex_msgs.Hand) (w : World) :
  (4 <= length (reflex_msgs.motor data))%nat ->
  (3 <= length (reflex_msgs.finger data))%nat ->
  _receive_hand_state_cb data w =
    _receive_hand_state_cb
      (reflex_msgs.mkHand (take 4 (reflex_msgs.motor data))
                          (take 3 (reflex_msgs.finger data))) w /\
  (hand_complete (hand w) ->
   outcome (_receive_hand_state_cb data) w = Ok tt).
Proof.
  destruct data as [rs ss]. simpl. intros Hrs Hss.
  split.
  - destruct rs as [|r0 [|r1 [|r2 [|r3 rs]]]]; simpl in Hrs; try lia.
    destruct ss as [|s0 [|s1 [|s2 ss]]]; simpl in Hss; try lia.
    reflexivity.
  - intros Hc. destruct (hand_state_events (reflex_msgs.mkHand rs ss) w Hc)
      as (Hout & _).
    rewrite Hout. simpl. by rewrite decide_True.
Qed.

(** X14.  The motor dictionary is read before the batch is indexed: on a hand
    without its first joint every batch, whatever its shape, raises a key
    error for that joint, after the watchdog clock has been set and before
    any record is handed to a motor or a finger. *)
Theorem missing_joint_precedes_shape (data : reflex_msgs.Hand) (w : World) :
  motors (hand w) !! (namespace (hand w) +:+ "_f1") = None ->
  outcome (_receive_hand_state_cb data) w =
    Raise (KeyError (namespace (hand w) +:+ "_f1")) /\
  latest_update (hand (exec (_receive_hand_state_cb data) w)) = clock w /\
  trace (exec (_receive_hand_state_cb data) w) =
    trace w ++ [EvLatestUpdate (clock w)] /\
  motors (hand (exec (_receive_hand_state_cb data) w)) = motors (hand w) /\
  fingers (hand (exec (_receive_hand_state_cb data) w)) = fingers (hand w).
Proof.
  destruct w as [[ns ms fs on q lu] t b tr]. simpl. intros Hm.
  unfold exec, outcome, _receive_hand_state_cb, motor_state_cb,
    modify_motors, modify_hand, get_hand, get_rostime, log, dict_get,
    raise, mbind, M_bind, mret, M_ret. cbn.
  rewrite Hm. done.
Qed.

(** *** How long the handlers block *)

Lemma handle_clock (c : InboundCommand) (w : World) :
  clock (exec (handle c) w) =
  if interlock w then time_add (time_add (clock w) (millis 50)) (millis 70)
  else clock w.
Proof.
  destruct w as [[ns ms fs on q lu] t b tr]. unfold interlock, exec.
  destruct c as [data|data|data], on;
    match goal with |- context [handle ?c ?w] => run (handle c) w end;
    reflexivity.
Qed.

(** X15.  A combined, angle or velocity command blocks its caller for the two
    settle delays, 120 ms in all, when the interlock is enabled and not at
    all when it is disabled; a force command always blocks for the 50 ms of
    the disable. *)
Theorem handler_blocking_time (w : World) :
  (forall c : InboundCommand,
     clock (exec (handle c) w) =
     if interlock w then time_add (clock w) (millis 120) else clock w) /\
  (forall data : reflex_msgs.ForceCommand,
     clock (exec (_receive_force_cmd_cb data) w) =
     time_add (clock w) (millis 50)).
Proof.
  split.
  - intros c. rewrite handle_clock. destruct (interlock w); [|done].
    by rewrite time_add_add.
  - intros data. destruct w as [[ns ms fs on q lu] t b tr]. unfold exec.
    match goal with |- context [_receive_force_cmd_cb data ?w] =>
      run (_receive_force_cmd_cb data) w end.
    reflexivity.
Qed.

(** *** The control loop *)

Lemma main_loop_inert (fuel : nat) (w : World) :
  is_shutdown w = true -> main_loop fuel w = (Ok tt, w).
Proof. intros Hs. destruct fuel; simpl; [done|]. by rewrite Hs. Qed.

Lemma main_loop_step (fuel : nat) (w : World) :
  is_shutdown w = false ->
  main_loop (S fuel) w = (main_iteration ;; main_loop fuel) w.
Proof. intros Hs. simpl. by rewrite Hs. Qed.

(** One iteration, given how the arbitration pass went. *)
Lemma main_iteration_ok (w w1 : World) :
  _publish_motor_commands w = (Ok tt, w1) ->
  main_iteration w =
    if comms_timed_out (clock w1) (hand w1)
    then (Ok tt,
          mkWorld (hand w1) (time_add (clock w1) RATE_PERIOD) true
                  (trace w1 ++ [EvLogFatal (comms_timeout (hand w1));
                                EvSignalShutdown "Comms timeout";
                                EvSleep RATE_PERIOD]))
    else (Ok tt,
          mkWorld (hand w1) (time_add (clock w1) RATE_PERIOD) (is_shutdown w1)
                  (trace w1 ++ [EvSleep RATE_PERIOD])).
Proof.
  intros Hrun. unfold main_iteration.
  rewrite (bind_ok _ _ _ _ _ Hrun).
  unfold get_rostime, get_hand, when, log, signal_shutdown, sleep,
    mbind, M_bind, mret, M_ret. cbn.
  destruct (comms_timed_out (clock w1) (hand w1)); cbn; flatten_trace; done.
Qed.

Lemma main_iteration_raise (w w1 : World) (e : Exn) :
  _publish_motor_commands w = (Raise e, w1) ->
  main_iteration w = (Raise e, w1).
Proof. intros Hrun. unfold main_iteration. by apply bind_raise. Qed.

Lemma pass_loop_state : preserves loop_state _publish_motor_commands.
Proof. open_methods. frame. Qed.

(** X16.  However many iterations the loop makes, [rospy.signal_shutdown] is
    called at most once, and it has been called exactly when the loop ends
    with the shutdown flag set; a loop entered after shutdown does
    nothing. *)
Theorem shutdown_signalled_once (fuel : nat) (w : World) :
  (is_shutdown w = true -> main_loop fuel w = (Ok tt, w)) /\
  (is_shutdown w = false ->
   shutdown_signals (trace (exec (main_loop fuel) w)) =
     (shutdown_signals (trace w) +
      (if is_shutdown (exec (main_loop fuel) w) then 1 else 0))%nat).
Proof.
  split; [apply main_loop_inert|].
  revert w. induction fuel as [|fuel IH]; intros w Hs.
  - unfold exec. simpl. rewrite Hs. lia.
  - unfold exec in *. rewrite main_loop_step by done.
    pose proof (pass_loop_state w) as Hst. unfold loop_state in Hst.
    destruct (_publish_motor_commands w) as [[[]|e] w1] eqn:Hrun.
    + simpl in Hst. injection Hst as _ _ Hsd Hsig.
      pose proof (main_iteration_ok w w1 Hrun) as Hit.
      destruct (comms_timed_out (clock w1) (hand w1)).
      * rewrite (bind_ok _ _ _ _ _ Hit), main_loop_inert by done. simpl.
        rewrite shutdown_signals_fault. lia.
      * rewrite (bind_ok _ _ _ _ _ Hit).
        rewrite IH by (simpl; congruence). simpl.
        rewrite shutdown_signals_snoc. simpl. lia.
    + simpl in Hst. injection Hst as _ _ Hsd Hsig.
      rewrite (bind_raise _ _ _ _ _ (main_iteration_raise w w1 e Hrun)).
      simpl. rewrite Hsd, Hs. lia.
Qed.

End FurtherProperties.

(** ** The controller with the reference classes *)

#[local] Existing Instances spec_motor spec_finger spec_hand gmap_order.

(** C2.  On the hand left by a combined command, where every actuator has
    both a speed and a position to publish, servicing the speed class is a
    single request to the set_speed service that carries the four commanded
    speeds.  The commanded positions (here 1/10 for the first joint) are in
    no emitted command, and the position class is still pending afterwards.
    This is so of [_publish_speed_commands] called on its own, and of the
    arbitration chain with its colons restored, which calls it. *)
Theorem speed_path_sends_speeds_only :
  get_commanded_position <$> motors (hand commanded) !! "/reflex_takktile_f1"
    = Some (1 # 10)%Q /\
  any_motor speed_update_occurred (motors (hand commanded)) = true /\
  trace (exec _publish_motor_commands commanded) =
    trace commanded ++ [EvSetSpeedService [2; 2; 2; 2]%Q] /\
  (Position ∉ emitted (trace (exec _publish_motor_commands commanded))) /\
  any_motor position_update_occurred
    (motors (hand (exec _publish_motor_commands commanded))) = true /\
  outcome _publish_speed_commands commanded = Ok tt /\
  trace (exec _publish_speed_commands commanded) =
    trace commanded ++ [EvSetSpeedService [2; 2; 2; 2]%Q] /\
  (Position ∉ emitted (trace (exec _publish_speed_commands commanded))) /\
  any_motor position_update_occurred
    (motors (hand (exec _publish_speed_commands commanded))) = true.
Proof.
  repeat split; try (vm_compute; reflexivity).
  - vm_compute. intros Hin.
    repeat (apply elem_of_cons in Hin as [Hin|Hin]; [discriminate|]).
    by apply elem_of_nil in Hin.
  - vm_compute. intros Hin.
    repeat (apply elem_of_cons in Hin as [Hin|Hin]; [discriminate|]).
    by apply elem_of_nil in Hin.
Qed.

Lemma interlock_sequencing_witness :
  (interlock armed = true /\
   trace (exec (handle (AngleCommand sample_pose)) armed) =
     trace armed ++
     [EvDisableCall; EvSleep (millis 50); EvDisableReturn;
      EvResetSpeeds; EvSetAngles sample_pose;
      EvEnableCall; EvSleep (millis 70); EvEnableReturn]) /\
  (interlock fresh = false /\
   trace (exec (handle (AngleCommand sample_pose)) fresh) =
     trace fresh ++ [EvResetSpeeds; EvSetAngles sample_pose]).
Proof.
  split; (split; [vm_compute; reflexivity|]).
  - apply (interlock_sequencing (AngleCommand sample_pose) armed).
    vm_compute; reflexivity.
  - apply (interlock_sequencing (AngleCommand sample_pose) fresh).
    vm_compute; reflexivity.
Defined.

Lemma watchdog_boundary_witness :
  time_wf (mkTime 100 995000000) /\
  comms_timeout (with_latest_update (mkTime 100 995000000) (hand fresh)) = 5%Q /\
  comms_timed_out (time_add (mkTime 100 995000000) (seconds 5))
    (with_latest_update (mkTime 100 995000000) (hand fresh)) = false /\
  comms_timed_out (time_add (mkTime 100 995000000) (seconds 5 + millis 10))
    (with_latest_update (mkTime 100 995000000) (hand fresh)) = true /\
  comms_timed_out (time_add (mkTime 100 995000000) (seconds 6))
    (with_latest_update (mkTime 100 995000000) (hand fresh)) = true /\
  comms_timed_out (time_add (mkTime 100 995000000) (seconds 7 + millis 500))
    (with_latest_update (mkTime 100 995000000) (hand fresh)) = true.
Proof.
  split; [unfold time_wf, NSECS_PER_SEC; simpl; lia|].
  split; [vm_compute; reflexivity|].
  destruct (watchdog_boundary
              (with_latest_update (mkTime 100 995000000) (hand fresh))
              (mkTime 100 995000000)) as (H5 & H501 & H6 & _ & Hlate).
  - unfold time_wf, NSECS_PER_SEC; simpl; lia.
  - reflexivity.
  - vm_compute; reflexivity.
  - split; [exact H5|]. split; [apply H501; simpl; lia|].
    split; [exact H6|]. apply Hlate. vm_compute. discriminate.
Defined.

(** The constructed hand has seen feedback at 100 s sharp and has the
    timeout of five seconds; the test finds no fault at 105.01 s. *)
Lemma watchdog_hundredth_counterexample :
  latest_update (hand fresh) = mkTime 100 0 /\
  comms_timeout (hand fresh) = 5%Q /\
  ~ (comms_timed_out (time_add (mkTime 100 0) (seconds 5)) (hand fresh) = false /\
     comms_timed_out (time_add (mkTime 100 0) (seconds 5 + millis 10))
       (hand fresh) = true).
Proof.
  split; [vm_compute; reflexivity|]. split; [vm_compute; reflexivity|].
  intros [_ Hfault]. vm_compute in Hfault. discriminate.
Qed.

Lemma force_override_witness :
  Forall (fun c => c <> CallEnableTactileStops)
    [CallCommand (AngleCommand sample_pose); CallPublishMotorCommands;
     CallHandState full_batch; CallDisableTactileStops] /\
  interlock armed = true /\
  interlock (exec (_receive_force_cmd_cb sample_force) armed) = false /\
  interlock
    (serve [CallCommand (AngleCommand sample_pose); CallPublishMotorCommands;
            CallHandState full_batch; CallDisableTactileStops]
       (exec (_receive_force_cmd_cb sample_force) armed)) = false.
Proof.
  assert (Forall (fun c => c <> CallEnableTactileStops)
            [CallCommand (AngleCommand sample_pose); CallPublishMotorCommands;
             CallHandState full_batch; CallDisableTactileStops]) as Hcs
    by (repeat constructor; discriminate).
  split; [exact Hcs|]. split; [vm_compute; reflexivity|].
  destruct (force_override sample_force armed _ Hcs) as (_ & Hoff & _ & Hstay & _).
  split; [exact Hoff | exact Hstay].
Defined.

Lemma feedback_routing_witness :
  motors (hand later) !! "/reflex_takktile_preshape" = Some (connected_motor None) /\
  outcome (_receive_hand_state_cb full_batch) later = Ok tt /\
  latest_update (hand (exec (_receive_hand_state_cb full_batch) later)) =
    mkTime 101 0 /\
  trace (exec (_receive_hand_state_cb full_batch) later) =
    [EvLatestUpdate (mkTime 101 0);
     EvMotorState "/reflex_takktile_f1" (sample_motor_record 0);
     EvMotorState "/reflex_takktile_f2" (sample_motor_record 1);
     EvMotorState "/reflex_takktile_f3" (sample_motor_record 2);
     EvMotorState "/reflex_takktile_preshape" (sample_motor_record 3);
     EvFingerState "/reflex_takktile_f1" (sample_finger_record 0);
     EvFingerState "/reflex_takktile_f2" (sample_finger_record 1);
     EvFingerState "/reflex_takktile_f3" (sample_finger_record 2)].
Proof.
  split; [vm_compute; reflexivity|].
  pose proof (feedback_routing later full_batch
                (connected_motor (Some "/reflex_takktile_f1"))
                (connected_motor (Some "/reflex_takktile_f2"))
                (connected_motor (Some "/reflex_takktile_f3"))
                (connected_motor None)
                (mkFinger None) (mkFinger None) (mkFinger None)
                (sample_motor_record 0) (sample_motor_record 1)
                (sample_motor_record 2) (sample_motor_record 3)
                (sample_finger_record 0) (sample_finger_record 1)
                (sample_finger_record 2)) as Hw.
  destruct Hw as (Hok & Hlu & Htr & _); try (vm_compute; reflexivity).
  split; [exact Hok|]. split; [exact Hlu | exact Htr].
Defined.

Lemma short_feedback_partial_witness :
  hand_complete (hand later) /\
  (length (reflex_msgs.finger two_finger_batch) < 3)%nat /\
  outcome (_receive_hand_state_cb two_finger_batch) later =
    Raise (IndexError 2) /\
  latest_update (hand (exec (_receive_hand_state_cb two_finger_batch) later)) =
    mkTime 101 0 /\
  motors (hand (exec (_receive_hand_state_cb two_finger_batch) later))
    !! "/reflex_takktile_preshape" =
    Some (mkMotor false false false None 0 0 0 false
                  (Some (sample_motor_record 3))) /\
  fingers (hand (exec (_receive_hand_state_cb two_finger_batch) later))
    !! "/reflex_takktile_f2" = Some (mkFinger (Some (sample_finger_record 6))) /\
  fingers (hand (exec (_receive_hand_state_cb two_finger_batch) later))
    !! "/reflex_takktile_f3" = Some (mkFinger None).
Proof.
  assert (hand_complete (hand later)) as Hc
    by (split; repeat constructor; vm_compute; eauto).
  split; [exact Hc|]. split; [simpl; lia|].
  destruct (short_feedback_partial later two_finger_batch Hc)
    as (Hout & Hlu & _ & Hms & _ & Hfs & _ & Hkeep); [simpl; lia|].
  split; [exact Hout|]. split; [exact Hlu|].
  split; [|split].
  - apply (Hms 3%nat "/reflex_takktile_preshape" (sample_motor_record 3)
               (connected_motor None)); vm_compute; reflexivity.
  - apply (Hfs 1%nat "/reflex_takktile_f2" (sample_finger_record 6)
               (mkFinger None)); first [ simpl; lia | vm_compute; reflexivity ].
  - rewrite (Hkeep 2%nat "/reflex_takktile_f3"); vm_compute; reflexivity.
Defined.

(** The short batch is refused with an index error, yet the hand is not as
    it was: the watchdog clock has moved from 100 s to 101 s and the first
    joint holds the record of the batch. *)
Lemma short_feedback_counterexample :
  (length (reflex_msgs.motor short_batch) < 4)%nat /\
  outcome (_receive_hand_state_cb short_batch) later = Raise (IndexError 1) /\
  latest_update (hand later) = mkTime 100 0 /\
  latest_update (hand (exec (_receive_hand_state_cb short_batch) later)) =
    mkTime 101 0 /\
  motor_state <$> motors (hand later) !! "/reflex_takktile_f1" = Some None /\
  motor_state <$>
    motors (hand (exec (_receive_hand_state_cb short_batch) later))
      !! "/reflex_takktile_f1" = Some (Some (sample_motor_record 7)) /\
  hand (exec (_receive_hand_state_cb short_batch) later) <> hand later.
Proof.
  split; [simpl; lia|].
  repeat (split; [vm_compute; reflexivity|]).
  intros E. apply (f_equal latest_update) in E. vm_compute in E. discriminate.
Qed.

Lemma interlock_starts_disabled_witness :
  Forall (fun c => c <> CallEnableTactileStops)
    [CallHandState short_batch; CallDisableTactileStops] /\
  interlock boot = true /\
  outcome __init__ boot = Ok tt /\
  interlock (exec __init__ boot) = false /\
  trace (exec (handle (VelocityCommand sample_velocity))
           (serve [CallHandState short_batch; CallDisableTactileStops]
              (exec __init__ boot))) =
    trace (serve [CallHandState short_batch; CallDisableTactileStops]
             (exec __init__ boot)) ++ [EvSetVelocities sample_velocity].
Proof.
  assert (Forall (fun c => c <> CallEnableTactileStops)
            [CallHandState short_batch; CallDisableTactileStops]) as Hcs
    by (repeat constructor; discriminate).
  split; [exact Hcs|]. split; [reflexivity|].
  destruct (interlock_starts_disabled boot _
              (VelocityCommand sample_velocity) Hcs) as (Hok & Hoff & Htr & _).
  split; [exact Hok|]. split; [exact Hoff | exact Htr].
Defined.

(** ** Further properties with the reference classes *)

Lemma connect_motors_ok_witness :
  motors (hand unconnected) !! "/reflex_takktile_f2" =
    Some (connected_motor None) /\
  exists ms',
    _connect_motors_to_fingers unconnected =
      (Ok tt, mkWorld (with_motors ms' (hand unconnected)) (clock unconnected)
                      (is_shutdown unconnected) (trace unconnected)) /\
    ms' !! "/reflex_takktile_f2" =
      Some (connected_motor (Some "/reflex_takktile_f2")) /\
    ms' !! "/reflex_takktile_preshape" = Some (connected_motor None).
Proof.
  split; [vm_compute; reflexivity|].
  assert (map_Forall
            (fun ID _ => ID <> namespace (hand unconnected) +:+ "_preshape" ->
                         is_Some (fingers (hand unconnected) !! ID))
            (motors (hand unconnected))) as Hfs
    by (apply (bool_decide_unpack _); vm_compute; exact I).
  destruct (connect_motors_ok unconnected Hfs) as (ms' & Hrun & Hms).
  exists ms'. split; [exact Hrun|]. split.
  - rewrite Hms. vm_compute. reflexivity.
  - rewrite Hms. vm_compute. reflexivity.
Defined.

Lemma connect_motors_missing_finger_witness :
  motors (hand two_fingered) !! "/reflex_takktile_f3" =
    Some (connected_motor None) /\
  fingers (hand two_fingered) !! "/reflex_takktile_f3" = None /\
  exists ID',
    outcome _connect_motors_to_fingers two_fingered = Raise (KeyError ID') /\
    fingers (hand two_fingered) !! ID' = None.
Proof.
  split; [vm_compute; reflexivity|]. split; [vm_compute; reflexivity|].
  destruct (connect_motors_missing_finger two_fingered "/reflex_takktile_f3"
              (connected_motor None))
    as (ID' & Hout & _ & _ & Hf & _).
  - vm_compute; reflexivity.
  - vm_compute. discriminate.
  - vm_compute; reflexivity.
  - exists ID'. split; [exact Hout | exact Hf].
Defined.

Lemma constructed_hand_witness :
  motors (hand (exec __init__ boot)) !! "/reflex_takktile_f3" =
    Some (connected_motor (Some "/reflex_takktile_f3")) /\
  finger (connected_motor (Some "/reflex_takktile_f3")) =
    Some "/reflex_takktile_f3" /\
  fingers (hand (exec __init__ boot)) !! "/reflex_takktile_f3" =
    Some new_finger.
Proof.
  split; [vm_compute; reflexivity|].
  destruct (constructed_hand boot) as (_ & _ & Hint & _).
  apply (Hint "/reflex_takktile_f3"
              (connected_motor (Some "/reflex_takktile_f3"))).
  - vm_compute; reflexivity.
  - discriminate.
Defined.

Lemma only_feedback_writes_watchdog_witness :
  Forall (fun c => is_feedback c = false)
    [CallCommand (AngleCommand sample_pose); CallPublishMotorCommands;
     CallForceCommand sample_force; CallEnableTactileStops] /\
  latest_update
    (hand (serve [CallCommand (AngleCommand sample_pose);
                  CallPublishMotorCommands; CallForceCommand sample_force;
                  CallEnableTactileStops] later)) = mkTime 100 0.
Proof.
  assert (Forall (fun c => is_feedback c = false)
            [CallCommand (AngleCommand sample_pose); CallPublishMotorCommands;
             CallForceCommand sample_force; CallEnableTactileStops]) as Hcs
    by (repeat constructor).
  split; [exact Hcs|].
  destruct (only_feedback_writes_watchdog _ later Hcs) as [Hlu _].
  rewrite Hlu. vm_compute. reflexivity.
Defined.

Lemma only_toggles_write_interlock_witness :
  Forall (fun c => toggles_interlock c = false)
    [CallCommand (AngleCommand sample_pose); CallHandState short_batch;
     CallPublishMotorCommands; CallCommand (VelocityCommand sample_velocity)] /\
  interlock
    (serve [CallCommand (AngleCommand sample_pose); CallHandState short_batch;
            CallPublishMotorCommands;
            CallCommand (VelocityCommand sample_velocity)] armed) = true.
Proof.
  assert (Forall (fun c => toggles_interlock c = false)
            [CallCommand (AngleCommand sample_pose); CallHandState short_batch;
             CallPublishMotorCommands;
             CallCommand (VelocityCommand sample_velocity)]) as Hcs
    by (repeat constructor).
  split; [exact Hcs|].
  rewrite (only_toggles_write_interlock _ armed Hcs). vm_compute. reflexivity.
Defined.

Lemma joints_are_kept_witness :
  Forall (fun c => calls_setter c = false)
    [CallHandState full_batch; CallPublishMotorCommands;
     CallEnableTactileStops; CallHandState short_batch;
     CallDisableTactileStops] /\
  hand_complete (hand commanded) /\
  hand_complete
    (hand (serve [CallHandState full_batch; CallPublishMotorCommands;
                  CallEnableTactileStops; CallHandState short_batch;
                  CallDisableTactileStops] commanded)).
Proof.
  assert (Forall (fun c => calls_setter c = false)
            [CallHandState full_batch; CallPublishMotorCommands;
             CallEnableTactileStops; CallHandState short_batch;
             CallDisableTactileStops]) as Hcs
    by (repeat constructor).
  assert (hand_complete (hand commanded)) as Hc
    by (split; repeat constructor; vm_compute; eauto).
  split; [exact Hcs|]. split; [exact Hc|].
  destruct (joints_are_kept _ commanded Hcs) as (_ & _ & Hkeep).
  exact (Hkeep Hc).
Defined.

Lemma feedback_resets_watchdog_witness :
  (0 <= comms_timeout (hand stale))%Q /\
  comms_timed_out (clock stale) (hand stale) = true /\
  comms_timed_out (clock (exec (_receive_hand_state_cb short_batch) stale))
                  (hand (exec (_receive_hand_state_cb short_batch) stale)) = false.
Proof.
  assert (0 <= comms_timeout (hand stale))%Q as Hq
    by (vm_compute; discriminate).
  split; [exact Hq|]. split; [vm_compute; reflexivity|].
  apply (feedback_resets_watchdog short_batch stale Hq).
Defined.

Lemma long_batch_truncated_witness :
  (4 <= length (reflex_msgs.motor long_batch))%nat /\
  (3 <= length (reflex_msgs.finger long_batch))%nat /\
  _receive_hand_state_cb long_batch later =
    _receive_hand_state_cb full_batch later /\
  outcome (_receive_hand_state_cb long_batch) later = Ok tt.
Proof.
  assert (4 <= length (reflex_msgs.motor long_batch))%nat as H4
    by (simpl; lia).
  assert (3 <= length (reflex_msgs.finger long_batch))%nat as H3
    by (simpl; lia).
  split; [exact H4|]. split; [exact H3|].
  destruct (long_batch_truncated long_batch later H4 H3) as [Heq Hok].
  split; [exact Heq|]. apply Hok.
  split; repeat constructor; vm_compute; eauto.
Defined.

Lemma missing_joint_precedes_shape_witness :
  motors (hand boot) !! (namespace (hand boot) +:+ "_f1") = None /\
  outcome (_receive_hand_state_cb short_batch) boot = Raise (KeyError "_f1") /\
  outcome (_receive_hand_state_cb full_batch) boot = Raise (KeyError "_f1").
Proof.
  assert (motors (hand boot) !! (namespace (hand boot) +:+ "_f1") = None)
    as Hm by (vm_compute; reflexivity).
  split; [exact Hm|]. split.
  - apply (missing_joint_precedes_shape short_batch boot Hm).
  - apply (missing_joint_precedes_shape full_batch boot Hm).
Defined.

Lemma shutdown_signalled_once_witness :
  is_shutdown stale = false /\
  shutdown_signals (trace (exec (main_loop 5) stale)) =
    (shutdown_signals (trace stale) +
     (if is_shutdown (exec (main_loop 5) stale) then 1 else 0))%nat.
Proof.
  split; [reflexivity|].
  apply (shutdown_signalled_once 5 stale). reflexivity.
Defined.


Lemma speed_commands_publish_witness :
  joints_present (motors (hand commanded)) /\
  outcome _publish_speed_commands commanded = Ok tt /\
  trace (exec _publish_speed_commands commanded) =
    trace commanded ++ [EvSetSpeedService [2; 2; 2; 2]%Q] /\
  clock (exec _publish_speed_commands commanded) = clock commanded /\
  any_motor speed_update_occurred
    (motors (hand (exec _publish_speed_commands commanded))) = false /\
  any_motor position_update_occurred
    (motors (hand (exec _publish_speed_commands commanded))) = true.
Proof.
  assert (joints_present (motors (hand commanded))) as Hj
    by (repeat split; vm_compute; eauto).
  split; [exact Hj|].
  destruct (speed_commands_publish commanded Hj)
    as (m1 & m2 & m3 & m4 & H1 & H2 & H3 & H4 & Hrun & Hs & Hp & _).
  vm_compute in H1, H2, H3, H4.
  injection H1 as <-. injection H2 as <-.
  injection H3 as <-. injection H4 as <-.
  split; [unfold outcome; rewrite Hrun; reflexivity|].
  split; [unfold exec; rewrite Hrun; reflexivity|].
  split; [unfold exec; rewrite Hrun; reflexivity|].
  split; [exact Hs|]. rewrite Hp. vm_compute. reflexivity.
Defined.

Lemma position_commands_publish_witness :
  joints_present (motors (hand commanded)) /\
  outcome _publish_position_commands commanded = Ok tt /\
  trace (exec _publish_position_commands commanded) =
    trace commanded ++
    [EvMotorCmdPub [(1 # 10)%Q; (2 # 10)%Q; (3 # 10)%Q; 0%Q];
     EvSleep (millis 10)] /\
  clock (exec _publish_position_commands commanded) =
    time_add (clock commanded) (millis 10) /\
  any_motor position_update_occurred
    (motors (hand (exec _publish_position_commands commanded))) = false /\
  any_motor speed_update_occurred
    (motors (hand (exec _publish_position_commands commanded))) = true.
Proof.
  assert (joints_present (motors (hand commanded))) as Hj
    by (repeat split; vm_compute; eauto).
  split; [exact Hj|].
  destruct (position_commands_publish commanded Hj)
    as (m1 & m2 & m3 & m4 & H1 & H2 & H3 & H4 & Hrun & Hp & Hs & _).
  vm_compute in H1, H2, H3, H4.
  injection H1 as <-. injection H2 as <-.
  injection H3 as <-. injection H4 as <-.
  split; [unfold outcome; rewrite Hrun; reflexivity|].
  split; [unfold exec; rewrite Hrun; reflexivity|].
  split; [unfold exec; rewrite Hrun; reflexivity|].
  split; [exact Hp|]. rewrite Hs. vm_compute. reflexivity.
Defined.

Lemma torque_commands_publish_witness :
  joints_present (motors (hand forced)) /\
  outcome _publish_torque_commands forced = Ok tt /\
  trace (exec _publish_torque_commands forced) =
    trace forced ++
    [EvMotorTorquePub [5; 5; 5; 0]%Q; EvSleep (millis 10)] /\
  clock (exec _publish_torque_commands forced) =
    time_add (clock forced) (millis 10) /\
  any_motor torque_update_occurred (motors (hand forced)) = true /\
  any_motor torque_update_occurred
    (motors (hand (exec _publish_torque_commands forced))) = false.
Proof.
  assert (joints_present (motors (hand forced))) as Hj
    by (repeat split; vm_compute; eauto).
  split; [exact Hj|].
  destruct (torque_commands_publish forced Hj)
    as (m1 & m2 & m3 & m4 & H1 & H2 & H3 & H4 & Hrun & Ht & _).
  vm_compute in H1, H2, H3, H4.
  injection H1 as <-. injection H2 as <-.
  injection H3 as <-. injection H4 as <-.
  split; [unfold outcome; rewrite Hrun; reflexivity|].
  split; [unfold exec; rewrite Hrun; reflexivity|].
  split; [unfold exec; rewrite Hrun; reflexivity|].
  split; [vm_compute; reflexivity | exact Ht].
Defined.

